(** * oc_patch: the Ansible module [library/oc_patch.py]

    A shallow embedding of the module's path resolver, endpoint builder,
    patch builder, idempotency gate and result classifier, followed by
    the properties its specification states about them.

    Python values are modelled as follows.
    - [str] is [string]; [str.lower] acts on the ASCII letters.
    - A decoded JSON body is a [JsonValue]; a [dict] is an association
      list with distinct keys, in insertion order.  Numbers are the
      integers (a JSON number with a fraction is outside the model).
    - [module.exit_json] and [module.fail_json] record the result they
      were called with and raise [SystemExit], as [AnsibleModule] does;
      handed an exception object among their keywords they raise
      [TypeError] ("Value of unknown type") before anything is recorded.
    - A [requests.Response] is its status code and its decoded body; it
      is falsy exactly when its status is in 400..599
      ([Response.__bool__] is [Response.ok]). *)

From Stdlib Require Import String Ascii List ZArith Lia Bool DecimalString.
Import ListNotations.
Set Warnings "-register-all".
Local Open Scope string_scope.
Local Open Scope Z_scope.

(** ** Python string methods *)

Module Str.

Definition is_upper (c : ascii) : bool :=
  let n := nat_of_ascii c in (Nat.leb 65 n && Nat.leb n 90)%bool.

Definition lower_char (c : ascii) : ascii :=
  if is_upper c then ascii_of_nat (nat_of_ascii c + 32) else c.

(** [s.lower()] *)
Fixpoint lower (s : string) : string :=
  match s with
  | EmptyString => EmptyString
  | String c s' => String (lower_char c) (lower s')
  end.

(** [c in chars] for a one-character [c] *)
Fixpoint mem (c : ascii) (chars : string) : bool :=
  match chars with
  | EmptyString => false
  | String d chars' => (Ascii.eqb c d || mem c chars')%bool
  end.

(** [s.lstrip(chars)]: [chars] is a set of characters, not a prefix. *)
Fixpoint lstrip (chars s : string) : string :=
  match s with
  | EmptyString => EmptyString
  | String c s' => if mem c chars then lstrip chars s' else s
  end.

(** [s.rstrip(chars)] *)
Fixpoint rstrip (chars s : string) : string :=
  match s with
  | EmptyString => EmptyString
  | String c s' =>
      match rstrip chars s' with
      | EmptyString => if mem c chars then EmptyString else String c EmptyString
      | r => String c r
      end
  end.

(** [s.split(sep)] for a one-character separator: never the empty list. *)
Fixpoint split (sep : ascii) (s : string) : list string :=
  match s with
  | EmptyString => [EmptyString]
  | String c s' =>
      if Ascii.eqb c sep then EmptyString :: split sep s'
      else match split sep s' with
           | h :: t => String c h :: t
           | [] => [String c EmptyString]
           end
  end.

(** [s.startswith(p)] *)
Fixpoint startswith (p s : string) : bool :=
  match p, s with
  | EmptyString, _ => true
  | String a p', String b s' => (Ascii.eqb a b && startswith p' s')%bool
  | String _ _, EmptyString => false
  end.

(** [p in s] on two strings *)
Fixpoint contains (p s : string) : bool :=
  (startswith p s ||
   match s with
   | EmptyString => false
   | String _ s' => contains p s'
   end)%bool.

(** [str(n)] on an [int] *)
Definition of_int (n : Z) : string := NilZero.string_of_int (Z.to_int n).

(** the last character of [s], if any *)
Fixpoint last (s : string) : option ascii :=
  match s with
  | EmptyString => None
  | String c EmptyString => Some c
  | String _ s' => last s'
  end.

End Str.

(** ** Decoded JSON *)

Inductive JsonValue : Type :=
| JNull
| JBool (b : bool)
| JNum (n : Z)
| JStr (s : string)
| JArr (items : list JsonValue)
| JObj (fields : list (string * JsonValue)).

(** [d.get(k)] as an option, on a dict held as an association list *)
Fixpoint dict_get {V : Type} (d : list (string * V)) (k : string) : option V :=
  match d with
  | [] => None
  | (k', v) :: d' => if String.eqb k k' then Some v else dict_get d' k
  end.

(** [d[k] = v] *)
Fixpoint dict_set {V : Type} (d : list (string * V)) (k : string) (v : V)
  : list (string * V) :=
  match d with
  | [] => [(k, v)]
  | (k', v') :: d' =>
      if String.eqb k k' then (k, v) :: d' else (k', v') :: dict_set d' k v
  end.

(** Python's [==] on decoded JSON: [True == 1], dicts compare as maps. *)
Fixpoint py_eq (a b : JsonValue) {struct a} : bool :=
  match a, b with
  | JNull, JNull => true
  | JBool x, JBool y => Bool.eqb x y
  | JBool x, JNum y => Z.b2z x =? y
  | JNum x, JBool y => x =? Z.b2z y
  | JNum x, JNum y => x =? y
  | JStr x, JStr y => String.eqb x y
  | JArr xs, JArr ys =>
      (fix all2 (xs : list JsonValue) (ys : list JsonValue) : bool :=
         match xs, ys with
         | [], [] => true
         | x :: xs', y :: ys' => (py_eq x y && all2 xs' ys')%bool
         | _, _ => false
         end) xs ys
  | JObj xs, JObj ys =>
      (Nat.eqb (List.length xs) (List.length ys) &&
       (fix sub (xs : list (string * JsonValue)) : bool :=
          match xs with
          | [] => true
          | (k, x) :: xs' =>
              match dict_get ys k with
              | Some y => (py_eq x y && sub xs')%bool
              | None => false
              end
          end) xs)%bool
  | _, _ => false
  end.

(** ** Exceptions and the process state *)

Inductive PyExn : Type :=
| KeyError (key : string)
| TypeError
| AttributeError
| RequestException
| ReError
| Exception (message : string)
| SystemExit (code : Z).

(** [isinstance(e, Exception)]: [SystemExit] derives from [BaseException] only. *)
Definition is_Exception (e : PyExn) : bool :=
  match e with
  | SystemExit _ => false
  | _ => true
  end.

Inductive completion (A : Type) : Type :=
| Return (a : A)
| Raise (e : PyExn).
Arguments Return {A} a.
Arguments Raise {A} e.

(** ** PathResolver: [getPathValueFromDict] *)

(** [operator.getitem(a, b)] with [b] a string *)
Definition getitem (a : JsonValue) (b : string) : completion JsonValue :=
  match a with
  | JObj d =>
      match dict_get d b with
      | Some v => Return v
      | None => Raise (KeyError b)
      end
  | _ => Raise TypeError
  end.

(** [reduce(operator.getitem, mapPath, jsonDict)] *)
Fixpoint reduce_getitem (mapPath : list string) (acc : JsonValue)
  : completion JsonValue :=
  match mapPath with
  | [] => Return acc
  | k :: rest =>
      match getitem acc k with
      | Return v => reduce_getitem rest v
      | Raise e => Raise e
      end
  end.

Definition FailedKeyError : JsonValue := JStr "FailedKeyError".

(** The message of the raised [Exception], its line breaks and
    indentation collapsed to single spaces. *)
Definition getPathValueFromDict_failure : string :=
  "Failure: getPathValueFromDict - failed to translate user provided path into list. Check path input.".

Definition getPathValueFromDict (jsonDict : JsonValue) (path : string)
  : completion JsonValue :=
  let mapPath := List.tl (Str.split "/" path) in
  match reduce_getitem mapPath jsonDict with
  | Return v => Return v
  | Raise (KeyError _) => Return FailedKeyError
  | Raise _ => Raise (Exception getPathValueFromDict_failure)
  end.

(** ** EndpointBuilder: class [ApiEndpoint] *)

Module ApiEndpoint.

Record t : Type := mk {
  host : string;
  port : Z;
  namespace : string;
  objectName : string;
  objectType : string;
  objectOperation : string
}.

(** [__init__] *)
Definition init (host : string) (port : Z)
    (namespace objectName objectType objectOperation : string) : t :=
  mk (Str.lstrip "https://" host) port namespace objectName objectType
     objectOperation.

(** [__str__] *)
Definition str (self : t) : string :=
  let url := "https://" in
  let url := url ++ host self ++ ":" in
  let url := url ++ Str.of_int (port self) ++ "/" in
  let url := url ++ "api/v1/namespaces/" in
  let url := url ++ namespace self ++ "/" in
  let url := url ++ Str.lower (objectType self) in
  let url := url ++ "s/" in
  let url := url ++ objectName self in
  url.

End ApiEndpoint.

(** ** Module parameters, responses, results *)

(** [module.params['object']]: [name], [type] and [operation] are always
    supplied; the other keys may be missing from the dict. *)
Record ObjectParams : Type := {
  name : string;
  type : string;
  operation : string;
  path : option string;
  value : option JsonValue;
  from : option string
}.

(** [module.params] *)
Record Params : Type := {
  token : string;
  host : string;
  port : Z;
  namespace : string;
  object : ObjectParams
}.

Record Response : Type := {
  resp_status_code : Z;
  resp_json : JsonValue
}.

(** [Response.ok]: [raise_for_status] raises on 400..599. *)
Definition ok (r : Response) : bool :=
  negb ((400 <=? resp_status_code r) && (resp_status_code r <? 600)).

(** The objects [apiResponse] is handed as [apiResult] and [getResult]:
    the literal [0], the literal [{}], or a response. *)
Inductive PyObj : Type :=
| PyZero
| PyEmptyDict
| PyResponse (r : Response).

(** [not x] *)
Definition py_not (x : PyObj) : bool :=
  match x with
  | PyZero | PyEmptyDict => true
  | PyResponse r => negb (ok r)
  end.

Inductive Terminal : Type := Success | Failure.

(** What [exit_json] ([Success]) or [fail_json] ([Failure]) was called
    with; a keyword that the call does not pass is [None]. *)
Record Outcome : Type := {
  terminal : Terminal;
  msg : string;
  changed : option bool;
  json : option JsonValue;
  status_code : option JsonValue;
  new_value : option JsonValue;
  old_value : option JsonValue;
  test : option JsonValue;
  error : option PyExn
}.

Definition NA : JsonValue := JStr "N/A".

(** A call passing [msg], [changed], [json], [status_code], [new_value],
    [old_value] and [test]. *)
Definition report (t : Terminal) (msg : string) (changed : bool)
    (json status_code new_value old_value test : JsonValue) : Outcome :=
  {| terminal := t; msg := msg; changed := Some changed; json := Some json;
     status_code := Some status_code; new_value := Some new_value;
     old_value := Some old_value; test := Some test; error := None |}.

Definition Headers : Type := list (string * string).

(** What a request carries: [json.dumps(payload)], kept as the value it
    renders, or the [{}] that [getObject] passes. *)
Inductive WireBody : Type :=
| json_dumps (payload : JsonValue)
| empty_dict.

Inductive NetEvent : Type :=
| GET (url : string) (headers : Headers)
| PATCH (url : string) (headers : Headers) (data : WireBody).

(** The remote server seen through [requests]: [None] is a call that
    raises. *)
Record Transport : Type := {
  requests_get : string -> Headers -> option Response;
  requests_patch : string -> Headers -> WireBody -> option Response
}.

Record Process : Type := {
  network : list NetEvent;
  results : list Outcome
}.

Definition start : Process := {| network := []; results := [] |}.

(** ** Computations: state passing with exceptions *)

Definition M (A : Type) : Type := Process -> completion A * Process.

Definition ret {A} (a : A) : M A := fun st => (Return a, st).

Definition bind {A B} (m : M A) (k : A -> M B) : M B :=
  fun st =>
    match m st with
    | (Return a, st') => k a st'
    | (Raise e, st') => (Raise e, st')
    end.

Definition raise {A} (e : PyExn) : M A := fun st => (Raise e, st).

Definition lift {A} (c : completion A) : M A := fun st => (c, st).

(** [try: body / except <catches>: handler e] *)
Definition try_except {A} (body : M A) (catches : PyExn -> bool)
    (handler : PyExn -> M A) : M A :=
  fun st =>
    match body st with
    | (Return a, st') => (Return a, st')
    | (Raise e, st') => if catches e then handler e st' else (Raise e, st')
    end.

Declare Scope py_scope.
Delimit Scope py_scope with py.
Notation "x <- m ;; k" := (bind m (fun x => k))
  (at level 61, m at next level, right associativity) : py_scope.
Notation "m ;; k" := (bind m (fun _ => k))
  (at level 61, right associativity) : py_scope.
Infix "==" := String.eqb (at level 70, no associativity) : py_scope.
Local Open Scope py_scope.

Definition emit (o : Outcome) : M unit :=
  fun st => (Return tt, {| network := network st; results := results st ++ [o] |}).

Definition send (ev : NetEvent) : M unit :=
  fun st => (Return tt, {| network := network st ++ [ev]; results := results st |}).

(** [AnsibleModule._return_formatted]: the keywords are cleaned before
    they are printed, and an exception object among them is a value of
    unknown type. *)
Definition return_formatted (o : Outcome) : M unit :=
  match error o with
  | Some _ => raise TypeError
  | None => emit o
  end.

(** [module.exit_json] *)
Definition exit_json {A} (o : Outcome) : M A :=
  return_formatted o ;; raise (SystemExit 0).

(** [module.fail_json] *)
Definition fail_json {A} (o : Outcome) : M A :=
  return_formatted o ;; raise (SystemExit 1).

(** ** ResultClassifier: [apiResponse] *)

(** [x.json()] *)
Definition json_of (x : PyObj) : M JsonValue :=
  match x with
  | PyResponse r => ret (resp_json r)
  | _ => raise AttributeError
  end.

(** [x.status_code] *)
Definition status_code_of (x : PyObj) : M Z :=
  match x with
  | PyResponse r => ret (resp_status_code r)
  | _ => raise AttributeError
  end.

(** [module.params['object']['path']] *)
Definition param_path (params : Params) : M string :=
  match path (object params) with
  | Some p => ret p
  | None => raise (KeyError "path")
  end.

(** [s in m], with [s] a string and [m] a decoded JSON value *)
Definition py_in (s : string) (m : JsonValue) : completion bool :=
  match m with
  | JStr t => Return (Str.contains s t)
  | JArr items => Return (existsb (py_eq (JStr s)) items)
  | JObj d => Return (match dict_get d s with Some _ => true | None => false end)
  | _ => Raise TypeError
  end.

(** ["Unable to remove nonexistant key:" in apiResult.json()['message']] *)
Definition nonexistant_key (apiResult : PyObj) : M bool :=
  j <- json_of apiResult ;;
  m <- lift (getitem j "message") ;;
  lift (py_in "Unable to remove nonexistant key:" m).

Definition apiResponse (params : Params) (apiResult getResult : PyObj) : M unit :=
  let op := Str.lower (operation (object params)) in
  (if py_not apiResult then
     if op == "replace" then
       j <- json_of getResult ;;
       fail_json (report Failure
         "NO CHANGE: Path does not already exist, consider using add method"
         false j NA NA NA NA)
     else if op == "add" then
       j <- json_of getResult ;;
       fail_json (report Failure
         "NO CHANGE: Path already exists, consider using replace method."
         false j NA NA NA NA)
     else ret tt
   else ret tt) ;;
  sc <- status_code_of apiResult ;;
  if (200 <=? sc) && (sc <=? 299) then
    if (op == "replace") || (op == "add") || (op == "remove") then
      path <- param_path params ;;
      aj <- json_of apiResult ;;
      apiResultValue <- lift (getPathValueFromDict aj path) ;;
      gj <- json_of getResult ;;
      getResultValue <- lift (getPathValueFromDict gj path) ;;
      if py_eq apiResultValue getResultValue then
        exit_json (report Success
          ("NO CHANGE: " ++ op ++
           " successful, specified path already contained value.")
          false aj (JNum sc) apiResultValue getResultValue NA)
      else
        exit_json (report Success
          ("CHANGED: " ++ op ++
           " successful, specified path was updated with new value.")
          false aj (JNum sc) apiResultValue getResultValue NA)
    else if op == "test" then
      j <- json_of apiResult ;;
      exit_json (report Success
        "NO CHANGE: Test successful, specified path contains value."
        false j (JNum sc) NA NA (JBool true))
    else if op == "move" then
      j <- json_of apiResult ;;
      exit_json (report Success
        ("CHANGED: " ++ op ++ " sucessful, specified path sucessfully moved.")
        true j (JNum sc) NA NA NA)
    else if op == "get" then
      j <- json_of apiResult ;;
      exit_json (report Success
        ("NO CHANGE: " ++ op ++ " sucessful.")
        true j (JNum sc) NA NA NA)
    else ret tt
  else if sc =? 401 then
    j <- json_of apiResult ;;
    fail_json (report Failure
      "FAILURE: Server refused action, check your credentials."
      false j (JNum sc) NA NA NA)
  else if sc =? 500 then
    is_remove <- (if op == "remove" then nonexistant_key apiResult else ret false) ;;
    if is_remove then
      j <- json_of apiResult ;;
      exit_json (report Success
        "NO CHANGE: Key to be removed is already non-existant"
        false j (JNum sc) NA NA NA)
    else
      is_move <- (if op == "move" then nonexistant_key apiResult else ret false) ;;
      if is_move then
        j <- json_of apiResult ;;
        fail_json (report Failure
          "FAILED: Key to be moved does not exist in this path."
          false j (JNum sc) NA NA NA)
      else if op == "test" then
        j <- json_of apiResult ;;
        exit_json (report Success
          "NO CHANGE: Test unsucessful, specified path does not contain value."
          false j (JNum sc) NA NA (JBool false))
      else ret tt
  else
    j <- json_of apiResult ;;
    fail_json (report Failure
      "FAILED: API call returned failure code."
      false j (JNum sc) NA NA (JBool false)).

(** ** [re.search("\\b" + op + "\\b", s)] for a literal [op] *)

Module Re.

(** The characters that are not literals in a pattern. *)
Definition special : string := ".^$*+?{}[]\|()".

Fixpoint literal (op : string) : bool :=
  match op with
  | EmptyString => true
  | String c op' => negb (Str.mem c special) && literal op'
  end.

(** [\w] on ASCII *)
Definition word_char (c : ascii) : bool :=
  let n := nat_of_ascii c in
  ((Nat.leb 97 n && Nat.leb n 122) || (Nat.leb 65 n && Nat.leb n 90) ||
   (Nat.leb 48 n && Nat.leb n 57) || Nat.eqb n 95)%bool.

Definition is_w (c : option ascii) : bool :=
  match c with
  | Some c => word_char c
  | None => false
  end.

(** [\b] between the character before and the character after *)
Definition boundary (before after : option ascii) : bool :=
  xorb (is_w before) (is_w after).

Definition head (s : string) : option ascii :=
  match s with
  | EmptyString => None
  | String c _ => Some c
  end.

(** [s] without its prefix [p], when it has it *)
Fixpoint after_prefix (p s : string) : option string :=
  match p, s with
  | EmptyString, _ => Some s
  | String a p', String b s' =>
      if Ascii.eqb a b then after_prefix p' s' else None
  | String _ _, EmptyString => None
  end.

(** a match that starts here, [prev] being the character before *)
Definition match_here (prev : option ascii) (op s : string) : bool :=
  boundary prev (head s) &&
  match after_prefix op s with
  | Some rest =>
      boundary (match Str.last op with Some c => Some c | None => prev end)
               (head rest)
  | None => false
  end.

Fixpoint search_from (prev : option ascii) (op s : string) : bool :=
  match_here prev op s ||
  match s with
  | EmptyString => false
  | String c s' => search_from (Some c) op s'
  end.

(** [re.search("\\b" + op + "\\b", s) is not None], [op] literal *)
Definition search_word (op s : string) : bool := search_from None op s.

(** Every prefix of [s], the empty one first. *)
Fixpoint prefixes (s : string) : list string :=
  EmptyString ::
  match s with
  | EmptyString => []
  | String c s' => map (String c) (prefixes s')
  end.

(** Every [op] that [search_from prev op s] accepts. *)
Fixpoint candidates (prev : option ascii) (s : string) : list string :=
  filter (fun op => match_here prev op s) (prefixes s) ++
  match s with
  | EmptyString => []
  | String c s' => candidates (Some c) s'
  end.

End Re.

(** ** Transport, idempotency gate, patch builder and entry point *)

(** The messages of the exceptions raised by [getObject] and
    [patchObject], and the message of the last refusal of [main], their
    line breaks and indentation collapsed to single spaces. *)
Definition getObject_failure : string :=
  "Failure: getObject - API call failed, user should check credentials, and API URL.".

Definition patchObject_failure : string :=
  "Failure: patchObject - API call failed, user should check credentials, and API URL.".

(** Lines 449-460 of [patchObject]: the one-operation patch document. *)
Definition payload_of (params : Params) : M JsonValue :=
  let op := Str.lower (operation (object params)) in
  p <- param_path params ;;
  let payload0 := [("op", JStr op); ("path", JStr (Str.rstrip "/" p))] in
  if negb (Str.contains "move" op) then
    match value (object params) with
    | Some v => ret (JArr [JObj (dict_set payload0 "value" v)])
    | None => raise (KeyError "value")
    end
  else if op == "move" then
    match from (object params) with
    | Some f => ret (JArr [JObj (dict_set payload0 "from" (JStr f))])
    | None => raise (KeyError "from")
    end
  else ret (JArr [JObj payload0]).

(** The headers of [getObject] and of [patchObject]. *)
Definition get_headers (params : Params) : Headers :=
  [("Content-Type", "application/json");
   ("Accept", "application/json");
   ("pretty", "true");
   ("Authorization", "Bearer " ++ token params)].

Definition patch_headers (params : Params) : Headers :=
  [("Content-Type", "application/json-patch+json");
   ("Accept", "application/json");
   ("pretty", "true");
   ("Authorization", "Bearer " ++ token params)].

Definition endpoint_of (params : Params) : ApiEndpoint.t :=
  ApiEndpoint.init (host params) (port params) (namespace params)
    (name (object params)) (type (object params))
    (operation (object params)).

(** [str(url)], as [requests] takes it from the endpoint object *)
Definition url_of (params : Params) : string :=
  ApiEndpoint.str (endpoint_of params).

(** [module.fail_json(msg=..., changed=False)] *)
Definition refusal (msg : string) : Outcome :=
  {| terminal := Failure; msg := msg; changed := Some false; json := None;
     status_code := None; new_value := None; old_value := None;
     test := None; error := None |}.

(** [module.fail_json(msg="Module Failure", error=e)] *)
Definition module_failure (e : PyExn) : Outcome :=
  {| terminal := Failure; msg := "Module Failure"; changed := None;
     json := None; status_code := None; new_value := None;
     old_value := None; test := None; error := Some e |}.

Definition select_operation : string :=
  "Please select an operation from: replace, add, remove, move, test, get".

Section Invocation.

(** The server, and [re.search] on the patterns that are not literal
    (where it may also raise [re.error]). *)
Variable server : Transport.
Variable re_search : string -> string -> completion bool.

(** Class [HTTPRequest] *)
Record HTTPRequest : Type := {
  apiUrl : ApiEndpoint.t;
  headers : Headers;
  payload : WireBody
}.

Definition HTTPRequest_get (self : HTTPRequest) : M Response :=
  let url := ApiEndpoint.str (apiUrl self) in
  send (GET url (headers self)) ;;
  match requests_get server url (headers self) with
  | Some r => ret r
  | None => raise RequestException
  end.

Definition HTTPRequest_patch (self : HTTPRequest) : M Response :=
  let url := ApiEndpoint.str (apiUrl self) in
  send (PATCH url (headers self) (payload self)) ;;
  match requests_patch server url (headers self) (payload self) with
  | Some r => ret r
  | None => raise RequestException
  end.

Definition getObject (params : Params) : M Response :=
  let headers := get_headers params in
  let url := endpoint_of params in
  let request := {| apiUrl := url; headers := headers; payload := empty_dict |} in
  try_except (HTTPRequest_get request) (fun _ => true)
    (fun _ => raise (Exception getObject_failure)).

Definition patchObject (params : Params) (getResult : Response) : M unit :=
  let op := Str.lower (operation (object params)) in
  let headers := patch_headers params in
  p <- param_path params ;;
  getResultValue <- lift (getPathValueFromDict (resp_json getResult) p) ;;
  (if py_eq getResultValue FailedKeyError then
     if op == "replace" then apiResponse params PyZero (PyResponse getResult)
     else ret tt
   else
     if op == "add" then apiResponse params PyZero (PyResponse getResult)
     else ret tt) ;;
  payload <- payload_of params ;;
  let url := endpoint_of params in
  let request := {| apiUrl := url; headers := headers;
                    payload := json_dumps payload |} in
  try_except
    (r <- HTTPRequest_patch request ;;
     apiResponse params (PyResponse r) (PyResponse getResult))
    (fun _ => true)
    (fun _ => raise (Exception patchObject_failure)).

(** [re.search("\\b" + op + "\\b", "replace|add|remove|move|test")] *)
Definition known_operation (op : string) : M bool :=
  if Re.literal op
  then ret (Re.search_word op "replace|add|remove|move|test")
  else lift (re_search ("\b" ++ op ++ "\b") "replace|add|remove|move|test").

Definition main (params : Params) : M unit :=
  let op := Str.lower (operation (object params)) in
  (if negb (op == "get") then
     p <- param_path params ;;
     if negb (Str.startswith "/" p) then
       fail_json (refusal "NO CHANGE: Declare an absolute path - e.g. /foo/baz.")
     else ret tt
   else ret tt) ;;
  getResponse <- try_except (getObject params) is_Exception
                   (fun e => fail_json (module_failure e)) ;;
  if op == "get" then
    try_except (apiResponse params (PyResponse getResponse) PyEmptyDict)
      is_Exception (fun e => fail_json (module_failure e))
  else
    known <- known_operation op ;;
    if known then
      try_except (patchObject params getResponse)
        is_Exception (fun e => fail_json (module_failure e))
    else
      fail_json (refusal select_operation).

(** A whole invocation, from a fresh process. *)
Definition run (params : Params) : completion unit * Process :=
  main params start.

End Invocation.

(** ** What the specification calls a pointer and its resolution *)

(** The segments of a path: split on [/], the leading segment dropped. *)
Definition pointer (path : string) : list string :=
  List.tl (Str.split "/" path).

(** [present root ptr v]: walking [ptr] from [root] through mappings
    ends at the sub-value [v]. *)
Inductive present : JsonValue -> list string -> JsonValue -> Prop :=
| present_here root : present root [] root
| present_below d k v rest w :
    dict_get d k = Some v -> present v rest w ->
    present (JObj d) (k :: rest) w.

(** [missing_key root ptr]: the walk reaches a mapping that lacks the
    next segment. *)
Inductive missing_key : JsonValue -> list string -> Prop :=
| missing_here d k rest :
    dict_get d k = None -> missing_key (JObj d) (k :: rest)
| missing_below d k v rest :
    dict_get d k = Some v -> missing_key v rest ->
    missing_key (JObj d) (k :: rest).

Definition is_mapping (v : JsonValue) : bool :=
  match v with
  | JObj _ => true
  | _ => false
  end.

(** [non_container root ptr]: the walk reaches a value that is not a
    mapping while a segment is still to be looked up. *)
Inductive non_container : JsonValue -> list string -> Prop :=
| non_container_here root k rest :
    is_mapping root = false -> non_container root (k :: rest)
| non_container_below d k v rest :
    dict_get d k = Some v -> non_container v rest ->
    non_container (JObj d) (k :: rest).

(** [n] slashes *)
Fixpoint slashes (n : nat) : string :=
  match n with
  | O => EmptyString
  | S n' => String "/" (slashes n')
  end.

(** ** Shared fixtures *)

Module Fixture.

Definition request (op : string) (p : option string)
    (v : option JsonValue) (f : option string) : Params :=
  {| token := "t0k3n"; host := "myocp.companyname.local"; port := 443;
     namespace := "ns";
     object := {| name := "cm1"; type := "ConfigMap"; operation := op;
                  path := p; value := v; from := f |} |}.

(** [{"data": {"k": s}}] *)
Definition data_k (s : string) : JsonValue :=
  JObj [("data", JObj [("k", JStr s)])].

Definition response (status : Z) (body : JsonValue) : Response :=
  {| resp_status_code := status; resp_json := body |}.

(** A server whose GET returns [g] and whose PATCH returns [p]. *)
Definition server (g p : option Response) : Transport :=
  {| requests_get := fun _ _ => g; requests_patch := fun _ _ _ => p |}.

Definition no_regex : string -> string -> completion bool :=
  fun _ _ => Raise ReError.

End Fixture.

(** [k] is not a key of [d]. *)
Fixpoint fresh_key (k : string) (d : list (string * JsonValue)) : bool :=
  match d with
  | [] => true
  | (k', _) :: d' => negb (String.eqb k k') && fresh_key k d'
  end.

(** Every mapping inside [v] has distinct keys, as a decoded body has. *)
Fixpoint distinct_keys (v : JsonValue) : bool :=
  match v with
  | JArr items =>
      (fix all (l : list JsonValue) : bool :=
         match l with
         | [] => true
         | x :: l' => distinct_keys x && all l'
         end) items
  | JObj fields =>
      (fix all (d : list (string * JsonValue)) : bool :=
         match d with
         | [] => true
         | (k, x) :: d' => fresh_key k d' && distinct_keys x && all d'
         end) fields
  | _ => true
  end.

(** Case analysis on the innermost scrutinee of the goal. *)
Ltac break_match :=
  match goal with
  | |- context [match ?x with _ => _ end] =>
      match x with
      | context [match _ with _ => _ end] => fail 1
      | _ => destruct x eqn:?
      end
  end.

(** The same, in a hypothesis. *)
Ltac break_match_in H :=
  match type of H with
  | context [match ?x with _ => _ end] =>
      match x with
      | context [match _ with _ => _ end] => fail 1
      | _ => destruct x eqn:?
      end
  end.

(** ** Path resolution *)

Section Resolver.

Lemma reduce_present root ptr v :
  present root ptr v -> reduce_getitem ptr root = Return v.
Proof.
  induction 1 as [root | d k v rest w Hk _ IH]; simpl.
  - reflexivity.
  - rewrite Hk. exact IH.
Qed.

Lemma reduce_missing root ptr :
  missing_key root ptr -> exists k, reduce_getitem ptr root = Raise (KeyError k).
Proof.
  induction 1 as [d k rest Hk | d k v rest Hk _ IH]; simpl; rewrite Hk.
  - now exists k.
  - exact IH.
Qed.

Lemma reduce_non_container root ptr :
  non_container root ptr -> reduce_getitem ptr root = Raise TypeError.
Proof.
  induction 1 as [root k rest Hm | d k v rest Hk _ IH]; simpl.
  - destruct root; simpl in Hm; try reflexivity; discriminate.
  - rewrite Hk. exact IH.
Qed.

Lemma getPathValueFromDict_present root path v :
  present root (pointer path) v -> getPathValueFromDict root path = Return v.
Proof.
  intros H. unfold getPathValueFromDict. fold (pointer path).
  now rewrite (reduce_present _ _ _ H).
Qed.

Lemma getPathValueFromDict_missing root path :
  missing_key root (pointer path) ->
  getPathValueFromDict root path = Return FailedKeyError.
Proof.
  intros H. unfold getPathValueFromDict. fold (pointer path).
  destruct (reduce_missing _ _ H) as [k ->]. reflexivity.
Qed.

Lemma getPathValueFromDict_non_container root path :
  non_container root (pointer path) ->
  getPathValueFromDict root path =
  Raise (Exception getPathValueFromDict_failure).
Proof.
  intros H. unfold getPathValueFromDict. fold (pointer path).
  now rewrite (reduce_non_container _ _ H).
Qed.

(** The three cases are exhaustive: the resolver is total. *)
Lemma walk_cases root ptr :
  (exists v, present root ptr v) \/ missing_key root ptr \/
  non_container root ptr.
Proof.
  revert root. induction ptr as [| k rest IH]; intros root.
  - left. exists root. constructor.
  - destruct root as [| b | n | s | items | d];
      try (right; right; now constructor).
    destruct (dict_get d k) as [v |] eqn:Hk.
    + destruct (IH v) as [[w Hw] | [Hm | Hn]].
      * left. exists w. econstructor; eassumption.
      * right; left. econstructor; eassumption.
      * right; right. econstructor 2; eassumption.
    + right; left. now constructor.
Qed.

End Resolver.

(** C8. For every root value and every path: when the pointer is present
    the resolver returns exactly the sub-value found there; when the walk
    meets a mapping without the next key it returns the not-found
    sentinel and does not raise; when the walk meets a value that is not
    a mapping with a segment left, it raises an exception, which is not
    the sentinel. *)
Theorem resolve_present_absent_malformed (root : JsonValue) (path : string) :
  (forall v, present root (pointer path) v ->
             getPathValueFromDict root path = Return v) /\
  (missing_key root (pointer path) ->
   getPathValueFromDict root path = Return FailedKeyError) /\
  (non_container root (pointer path) ->
   exists reason,
     getPathValueFromDict root path = Raise (Exception reason) /\
     getPathValueFromDict root path <> Return FailedKeyError).
Proof.
  split; [| split].
  - intros v. apply getPathValueFromDict_present.
  - apply getPathValueFromDict_missing.
  - intros H. exists getPathValueFromDict_failure.
    rewrite (getPathValueFromDict_non_container _ _ H).
    split; [reflexivity | discriminate].
Qed.

Lemma resolve_present_absent_malformed_witness :
  getPathValueFromDict (Fixture.data_k "old") "/data/k" = Return (JStr "old") /\
  getPathValueFromDict (Fixture.data_k "old") "/data/j" = Return FailedKeyError /\
  exists reason,
    getPathValueFromDict (Fixture.data_k "old") "/data/k/x" = Raise (Exception reason) /\
    getPathValueFromDict (Fixture.data_k "old") "/data/k/x" <> Return FailedKeyError.
Proof.
  split; [| split].
  - apply (proj1 (resolve_present_absent_malformed (Fixture.data_k "old") "/data/k")).
    eapply present_below; [reflexivity |].
    eapply present_below; [reflexivity |]. apply present_here.
  - apply (proj1 (proj2 (resolve_present_absent_malformed (Fixture.data_k "old") "/data/j"))).
    eapply missing_below; [reflexivity |]. apply missing_here. reflexivity.
  - apply (proj2 (proj2 (resolve_present_absent_malformed (Fixture.data_k "old") "/data/k/x"))).
    eapply non_container_below; [reflexivity |].
    eapply non_container_below; [reflexivity |].
    apply non_container_here. reflexivity.
Defined.

(** C6. A trailing slash is not dropped before resolution: on
    [{"data": {"foo": "bar"}}] the path [/data/foo] resolves to ["bar"],
    while [/data/foo/] looks the empty segment up in the string and
    raises. *)
Theorem trailing_slash_changes_resolution :
  let root := JObj [("data", JObj [("foo", JStr "bar")])] in
  pointer "/data/foo/" = ["data"; "foo"; ""] /\
  getPathValueFromDict root "/data/foo" = Return (JStr "bar") /\
  getPathValueFromDict root "/data/foo/" =
    Raise (Exception getPathValueFromDict_failure) /\
  getPathValueFromDict root "/data/foo/" <> getPathValueFromDict root "/data/foo".
Proof.
  cbv zeta. repeat split; try reflexivity. discriminate.
Qed.

(** C4. On the host [https://host] the endpoint is built for the host
    [ost]: [lstrip] removes every leading character that occurs in
    [https://], the [h] of [host] included. *)
Theorem endpoint_of_https_host (op : string) :
  let url := ApiEndpoint.str
               (ApiEndpoint.init "https://host" 443 "ns" "cm1" "ConfigMap" op) in
  url = "https://ost:443/api/v1/namespaces/ns/configmaps/cm1" /\
  url <> "https://host:443/api/v1/namespaces/ns/configmaps/cm1".
Proof.
  cbv zeta. split; [reflexivity | discriminate].
Qed.

(** ** Patch builder *)

Section PatchBuilder.

Lemma rstrip_slash_last p : Str.last (Str.rstrip "/" p) <> Some "/"%char.
Proof.
  induction p as [| a p IH]; simpl.
  - discriminate.
  - destruct (Str.rstrip "/" p) as [| b r] eqn:E.
    + destruct (Ascii.eqb_spec a "/") as [-> | Ha]; simpl.
      * discriminate.
      * intros [= ->]. now apply Ha.
    + exact IH.
Qed.

Lemma rstrip_slash_app p : exists n, p = Str.rstrip "/" p ++ slashes n.
Proof.
  induction p as [| a p [n IH]]; simpl.
  - now exists O.
  - destruct (Str.rstrip "/" p) as [| b r] eqn:E.
    + simpl in IH. destruct (Ascii.eqb_spec a "/") as [-> | Ha]; simpl.
      * exists (S n). simpl. now rewrite <- IH.
      * exists n. simpl. now rewrite <- IH.
    + exists n. simpl. simpl in IH. now rewrite <- IH.
Qed.

(** The patch document does not depend on the process state. *)
Lemma payload_of_pure params :
  exists c, forall st, payload_of params st = (c, st).
Proof.
  unfold payload_of, param_path, bind, ret, raise.
  repeat (break_match; simpl); eexists; intros; reflexivity.
Qed.

End PatchBuilder.

(** C7. For a request of any of the six kinds that carries a path, a
    value unless it is a remove or a move, and a from when it is a move,
    the patch document is a one-element list holding one mapping: its
    [op] is the kind, its [path] is the request path without its trailing
    slashes, it has a [value] for every kind but move and remove, a
    [from] for move only, and no other field. *)
Theorem build_wire_patch (params : Params) (p : string) (st : Process) :
  let op := Str.lower (operation (object params)) in
  In op ["get"; "replace"; "add"; "remove"; "move"; "test"] ->
  path (object params) = Some p ->
  (op <> "move" -> op <> "remove" -> value (object params) <> None) ->
  (op = "move" -> from (object params) <> None) ->
  exists fields,
    payload_of params st = (Return (JArr [JObj fields]), st) /\
    dict_get fields "op" = Some (JStr op) /\
    dict_get fields "path" = Some (JStr (Str.rstrip "/" p)) /\
    Str.last (Str.rstrip "/" p) <> Some "/"%char /\
    (exists n, p = Str.rstrip "/" p ++ slashes n) /\
    dict_get fields "value" =
      (if (op == "move") || (op == "remove") then None
       else value (object params)) /\
    dict_get fields "from" =
      (if op == "move" then option_map JStr (from (object params)) else None) /\
    (forall k, In k (map fst fields) -> In k ["op"; "path"; "value"; "from"]).
Proof.
  cbv zeta. intros Hop Hp Hv Hf.
  unfold payload_of, param_path, bind. rewrite Hp.
  pose proof (rstrip_slash_last p) as Hlast.
  pose proof (rstrip_slash_app p) as Happ.
  simpl in Hop.
  destruct Hop as [E | [E | [E | [E | [E | [E | []]]]]]];
    rewrite <- E in *; simpl.
  1, 2, 3, 6:
    destruct (value (object params)) as [v |] eqn:Ev;
    [ eexists; split; [reflexivity |]; simpl; repeat split; auto;
      intros k [<- | [<- | [<- | []]]]; simpl; auto
    | exfalso; apply Hv; [discriminate | discriminate | reflexivity] ].
  - eexists; split; [reflexivity |]; simpl; repeat split; auto.
    intros k [<- | [<- | []]]; simpl; auto.
  - destruct (from (object params)) as [f |] eqn:Ef.
    + eexists; split; [reflexivity |]; simpl; repeat split; auto.
      intros k [<- | [<- | [<- | []]]]; simpl; auto.
    + exfalso. now apply Hf.
Qed.

Lemma build_wire_patch_witness :
  exists fields,
    payload_of (Fixture.request "replace" (Some "/data/k/") (Some (JStr "v")) None)
      start = (Return (JArr [JObj fields]), start) /\
    dict_get fields "op" = Some (JStr "replace") /\
    dict_get fields "path" = Some (JStr "/data/k") /\
    dict_get fields "value" = Some (JStr "v") /\
    dict_get fields "from" = None.
Proof.
  destruct (build_wire_patch
              (Fixture.request "replace" (Some "/data/k/") (Some (JStr "v")) None)
              "/data/k/" start)
    as [fields [H1 [H2 [H3 [_ [_ [H4 [H5 _]]]]]]]].
  - simpl. auto.
  - reflexivity.
  - discriminate.
  - discriminate.
  - exists fields. repeat split; assumption.
Defined.

(** ** Result classification *)

Section Classifier.

(** After a 2xx answer to replace, add or remove the reported [changed]
    is [False] on both branches of the comparison. *)
Lemma apiResponse_2xx_changed_false params r g p a b st :
  let op := Str.lower (operation (object params)) in
  In op ["replace"; "add"; "remove"] ->
  200 <= resp_status_code r <= 299 ->
  path (object params) = Some p ->
  getPathValueFromDict (resp_json r) p = Return a ->
  getPathValueFromDict (resp_json g) p = Return b ->
  exists o,
    apiResponse params (PyResponse r) (PyResponse g) st =
      (Raise (SystemExit 0),
       {| network := network st; results := results st ++ [o] |}) /\
    terminal o = Success /\ changed o = Some false /\
    new_value o = Some a /\ old_value o = Some b.
Proof.
  cbv zeta. intros Hop Hsc Hp Ha Hb.
  assert (H400 : (400 <=? resp_status_code r) = false) by (apply Z.leb_gt; lia).
  assert (H200 : (200 <=? resp_status_code r) = true) by (apply Z.leb_le; lia).
  assert (H299 : (resp_status_code r <=? 299) = true) by (apply Z.leb_le; lia).
  unfold apiResponse, py_not, ok, status_code_of, json_of, param_path,
    bind, ret, lift.
  rewrite H400, Hp. simpl. rewrite H200, H299. simpl.
  simpl in Hop.
  destruct Hop as [E | [E | [E | []]]]; rewrite <- E; simpl;
    rewrite Ha, Hb; destruct (py_eq a b);
    eexists; (split; [reflexivity | simpl; auto]).
Qed.

(** The classifier sends nothing. *)
Lemma apiResponse_network params a g st :
  network (snd (apiResponse params a g st)) = network st.
Proof.
  unfold apiResponse, nonexistant_key, py_not, status_code_of, json_of, param_path,
    exit_json, fail_json, emit, raise, bind, ret, lift.
  repeat (break_match; simpl; try reflexivity).
Qed.

(** A status outside 200..299, 401 and 500 is the generic failure, unless
    the answer is falsy and the operation is replace or add. *)
Lemma apiResponse_unlisted_status_fails params r g st :
  let sc := resp_status_code r in
  let op := Str.lower (operation (object params)) in
  ~ 200 <= sc <= 299 -> sc <> 401 -> sc <> 500 ->
  (op <> "replace" /\ op <> "add") \/ ~ 400 <= sc < 600 ->
  apiResponse params (PyResponse r) g st =
    (Raise (SystemExit 1),
     {| network := network st;
        results := results st ++
          [report Failure "FAILED: API call returned failure code."
             false (resp_json r) (JNum sc) NA NA (JBool false)] |}).
Proof.
  cbv zeta. intros H2xx H401 H500 Hgate.
  assert (E2 : ((200 <=? resp_status_code r) && (resp_status_code r <=? 299)) = false).
  { apply andb_false_iff.
    destruct (Z.leb_spec 200 (resp_status_code r)); [| now left].
    right. apply Z.leb_gt. lia. }
  assert (E401 : (resp_status_code r =? 401) = false) by now apply Z.eqb_neq.
  assert (E500 : (resp_status_code r =? 500) = false) by now apply Z.eqb_neq.
  assert (Efirst :
    (if py_not (PyResponse r)
     then if Str.lower (operation (object params)) == "replace"
          then true
          else Str.lower (operation (object params)) == "add"
     else false) = false).
  { destruct Hgate as [[Hr Ha] | Hok].
    - apply String.eqb_neq in Hr, Ha. rewrite Hr, Ha. now destruct (py_not _).
    - unfold py_not, ok. rewrite negb_involutive.
      replace ((400 <=? resp_status_code r) && (resp_status_code r <? 600))
        with false; [reflexivity |].
      symmetry. apply andb_false_iff.
      destruct (Z.leb_spec 400 (resp_status_code r)); [| now left].
      right. apply Z.ltb_ge. lia. }
  unfold apiResponse, status_code_of, json_of, bind.
  destruct (py_not (PyResponse r));
    destruct (Str.lower (operation (object params)) == "replace");
    destruct (Str.lower (operation (object params)) == "add");
    try discriminate Efirst; unfold ret; cbv beta iota;
    rewrite E2, E401, E500; reflexivity.
Qed.

End Classifier.

(** C1. The prior body holds ["old"] at [/data/k], the answer to the
    replace has status 200 and holds ["new"] there: the two resolved
    values differ, the message says CHANGED, and the reported [changed]
    is [False]. *)
Theorem replace_with_new_value_reports_unchanged :
  let prior := Fixture.response 200 (Fixture.data_k "old") in
  let answer := Fixture.response 200 (Fixture.data_k "new") in
  let params :=
    Fixture.request "replace" (Some "/data/k") (Some (JStr "new")) None in
  getPathValueFromDict (resp_json answer) "/data/k" = Return (JStr "new") /\
  getPathValueFromDict (resp_json prior) "/data/k" = Return (JStr "old") /\
  py_eq (JStr "new") (JStr "old") = false /\
  apiResponse params (PyResponse answer) (PyResponse prior) start =
    (Raise (SystemExit 0),
     {| network := [];
        results :=
          [report Success
             "CHANGED: replace successful, specified path was updated with new value."
             false (Fixture.data_k "new") (JNum 200) (JStr "new") (JStr "old")
             NA] |}).
Proof.
  cbv zeta. repeat split; reflexivity.
Qed.

(** C2. A 500 answer to a remove whose message is not the documented one
    falls through the classifier: it returns without reporting any
    result. *)
Theorem remove_500_other_message_reports_nothing :
  let answer := Fixture.response 500 (JObj [("message", JStr "boom")]) in
  let prior := Fixture.response 200 (Fixture.data_k "old") in
  let params := Fixture.request "remove" (Some "/data/k") None None in
  apiResponse params (PyResponse answer) (PyResponse prior) start =
    (Return tt, start).
Proof.
  reflexivity.
Qed.

(** C10. Whatever the body of a 500 answer to a test is, and whatever the
    prior result is, the classifier reports a success with [changed]
    [False] and [test] [False]. *)
Theorem test_500_reports_test_false (params : Params) (body : JsonValue)
    (getResult : PyObj) (st : Process) :
  Str.lower (operation (object params)) = "test" ->
  apiResponse params
    (PyResponse {| resp_status_code := 500; resp_json := body |}) getResult st =
    (Raise (SystemExit 0),
     {| network := network st;
        results := results st ++
          [report Success
             "NO CHANGE: Test unsucessful, specified path does not contain value."
             false body (JNum 500) NA NA (JBool false)] |}).
Proof.
  intros Hop. unfold apiResponse. rewrite Hop. reflexivity.
Qed.

Lemma test_500_reports_test_false_witness :
  apiResponse (Fixture.request "TEST" (Some "/data/k") (Some (JStr "v")) None)
    (PyResponse {| resp_status_code := 500; resp_json := JNull |})
    PyEmptyDict start =
    (Raise (SystemExit 0),
     {| network := [];
        results :=
          [report Success
             "NO CHANGE: Test unsucessful, specified path does not contain value."
             false JNull (JNum 500) NA NA (JBool false)] |}).
Proof.
  apply (test_500_reports_test_false
           (Fixture.request "TEST" (Some "/data/k") (Some (JStr "v")) None)
           JNull PyEmptyDict start).
  reflexivity.
Defined.

(** ** The operation check of [main] *)

Section OperationCheck.

Lemma after_prefix_prefixes op : forall s rest,
  Re.after_prefix op s = Some rest -> In op (Re.prefixes s).
Proof.
  induction op as [| a op IH]; intros s rest H.
  - destruct s; simpl; auto.
  - destruct s as [| b s]; simpl in H; [discriminate |].
    destruct (Ascii.eqb_spec a b) as [-> | _]; [| discriminate].
    simpl. right. apply in_map. eapply IH; eassumption.
Qed.

Lemma match_here_candidates prev op s :
  Re.match_here prev op s = true ->
  In op (filter (fun op => Re.match_here prev op s) (Re.prefixes s)).
Proof.
  intros H. apply filter_In. split; [| exact H].
  unfold Re.match_here in H. apply andb_true_iff in H as [_ H].
  destruct (Re.after_prefix op s) as [rest |] eqn:E; [| discriminate].
  eapply after_prefix_prefixes; eassumption.
Qed.

Lemma search_from_candidates op : forall s prev,
  Re.search_from prev op s = true -> In op (Re.candidates prev s).
Proof.
  induction s as [| c s IH]; intros prev H; simpl in H;
    apply orb_true_iff in H as [H | H]; cbn [Re.candidates]; apply in_or_app.
  - left. now apply match_here_candidates.
  - discriminate.
  - left. now apply match_here_candidates.
  - right. now apply IH.
Qed.

(** A literal operation that the check accepts is one of the five
    words, or the empty string. *)
Lemma search_word_literal op :
  Re.literal op = true ->
  Re.search_word op "replace|add|remove|move|test" = true ->
  In op [""; "replace"; "add"; "remove"; "move"; "test"].
Proof.
  intros Hl Hs. apply search_from_candidates in Hs.
  assert (H : In op (filter Re.literal
                       (Re.candidates None "replace|add|remove|move|test")))
    by (apply filter_In; split; assumption).
  vm_compute in H. simpl.
  repeat (destruct H as [H | H]; [subst op; auto 10 |]).
  destruct H.
Qed.

End OperationCheck.

(** ** The resolver: segments and composition *)

Section Segments.

Lemma split_not_nil sep s : Str.split sep s <> [].
Proof.
  destruct s as [| c s]; simpl; [discriminate |].
  destruct (Ascii.eqb c sep); [discriminate |].
  destruct (Str.split sep s); discriminate.
Qed.

Lemma split_app sep p q :
  Str.split sep (p ++ String sep q) = (Str.split sep p ++ Str.split sep q)%list.
Proof.
  induction p as [| c p IH]; simpl.
  - now rewrite Ascii.eqb_refl.
  - destruct (Ascii.eqb c sep); [now rewrite IH |].
    rewrite IH. pose proof (split_not_nil sep p) as Hn.
    destruct (Str.split sep p); [contradiction | reflexivity].
Qed.

Lemma split_without_sep sep s :
  Str.mem sep s = false -> Str.split sep s = [s].
Proof.
  induction s as [| c s IH]; simpl; [reflexivity |].
  rewrite Ascii.eqb_sym. destruct (Ascii.eqb c sep); simpl; [discriminate |].
  intros H. now rewrite (IH H).
Qed.

Lemma pointer_app p q :
  pointer (p ++ String "/" q) = (pointer p ++ Str.split "/" q)%list.
Proof.
  unfold pointer. rewrite split_app.
  pose proof (split_not_nil "/" p) as Hn.
  destruct (Str.split "/" p); [contradiction | reflexivity].
Qed.

Lemma reduce_getitem_app a b root :
  reduce_getitem (a ++ b) root =
  match reduce_getitem a root with
  | Return v => reduce_getitem b v
  | Raise e => Raise e
  end.
Proof.
  revert root. induction a as [| k a IH]; intros root; simpl; [reflexivity |].
  destruct (getitem root k); [apply IH | reflexivity].
Qed.

Lemma getPathValueFromDict_app root v p q :
  present root (pointer p) v ->
  getPathValueFromDict root (p ++ String "/" q) =
  getPathValueFromDict v (String "/" q).
Proof.
  intros H. unfold getPathValueFromDict.
  fold (pointer (p ++ String "/" q)). rewrite pointer_app, reduce_getitem_app.
  rewrite (reduce_present _ _ _ H). reflexivity.
Qed.

Lemma getPathValueFromDict_raise root path e :
  getPathValueFromDict root path = Raise e ->
  e = Exception getPathValueFromDict_failure.
Proof.
  unfold getPathValueFromDict.
  destruct (reduce_getitem _ root) as [v | []]; congruence.
Qed.

Lemma py_eq_sentinel v :
  py_eq v FailedKeyError = true <-> v = JStr "FailedKeyError".
Proof.
  split.
  - destruct v; simpl; try discriminate. intros H.
    apply String.eqb_eq in H. now subst.
  - intros ->. reflexivity.
Qed.



End Segments.

(** ** Whole invocations *)

Section Invocations.

Variable server : Transport.
Variable re_search : string -> string -> completion bool.

Lemma getObject_sends_get params st :
  getObject server params st =
    (match requests_get server (url_of params) (get_headers params) with
     | Some r => Return r
     | None => Raise (Exception getObject_failure)
     end,
     {| network := network st ++ [GET (url_of params) (get_headers params)];
        results := results st |}).
Proof.
  unfold getObject, try_except, HTTPRequest_get, bind, send, url_of. simpl.
  destruct (requests_get server _ _); reflexivity.
Qed.

(** [main] up to the choice of the operation, for an operation other
    than get with an absolute path. *)
Lemma main_reaches_choice params p :
  let op := Str.lower (operation (object params)) in
  (op == "get") = false ->
  path (object params) = Some p ->
  Str.startswith "/" p = true ->
  main server re_search params start =
    match requests_get server (url_of params) (get_headers params) with
    | Some getResponse =>
        (known <- known_operation re_search op ;;
         if known then
           try_except (patchObject server params getResponse)
             is_Exception (fun e => fail_json (module_failure e))
         else fail_json (refusal select_operation))
          {| network := [GET (url_of params) (get_headers params)];
             results := [] |}
    | None =>
        (Raise TypeError,
         {| network := [GET (url_of params) (get_headers params)];
            results := [] |})
    end.
Proof.
  cbv zeta. intros Hget Hp Hs.
  unfold main. rewrite Hget. unfold param_path. rewrite Hp.
  cbn [negb]. unfold bind at 1 2. unfold ret at 1. cbv beta iota. rewrite Hs.
  cbn [negb ret]. cbv beta iota.
  unfold bind at 1. unfold try_except at 1. rewrite getObject_sends_get.
  destruct (requests_get server _ _); reflexivity.
Qed.

(** [patchObject] sends at most one request, a PATCH carrying the patch
    document. *)
Lemma patchObject_network params g st :
  exists sent,
    network (snd (patchObject server params g st)) = (network st ++ sent)%list /\
    (sent = [] \/
     exists doc,
       payload_of params st = (Return doc, st) /\
       sent = [PATCH (url_of params) (patch_headers params) (json_dumps doc)]).
Proof.
  destruct (payload_of_pure params) as [c Hc].
  assert (Hnil : forall l : list NetEvent, l = (l ++ [])%list)
    by (intros; now rewrite app_nil_r).
  unfold patchObject, param_path.
  destruct (path (object params)) as [p |];
    [| exists []; split; [apply Hnil | now left]].
  unfold bind at 1. unfold ret at 1. cbv beta iota.
  unfold bind at 1. unfold lift at 1.
  destruct (getPathValueFromDict (resp_json g) p) as [v | e];
    [| exists []; split; [apply Hnil | now left]].
  unfold bind at 1.
  set (gate := if py_eq v FailedKeyError then _ else _).
  assert (Hgate : network (snd (gate st)) = network st).
  { subst gate. destruct (py_eq v FailedKeyError);
      destruct (_ == _); try reflexivity; apply apiResponse_network. }
  destruct (gate st) as [[[] | e] st1]; simpl in Hgate;
    [| exists []; split; [simpl; rewrite Hgate; apply Hnil | now left]].
  unfold bind at 1. rewrite Hc.
  destruct c as [doc | e];
    [| exists []; split; [simpl; rewrite Hgate; apply Hnil | now left]].
  exists [PATCH (url_of params) (patch_headers params) (json_dumps doc)].
  split; [| right; exists doc; split; [apply Hc | reflexivity]].
  unfold try_except, HTTPRequest_patch, bind, send. simpl.
  fold (url_of params).
  match goal with
  | |- context [requests_patch ?a ?b ?c ?d] =>
      destruct (requests_patch a b c d) as [r |]
  end; simpl.
  - match goal with
    | |- context [apiResponse ?a ?b ?c ?d] =>
        pose proof (apiResponse_network a b c d) as Hn;
        destruct (apiResponse a b c d) as [[[] | e] st2]
    end; simpl in *; rewrite Hn, Hgate; reflexivity.
  - rewrite Hgate. reflexivity.
Qed.

End Invocations.

(** C3. An operation outside the six kinds, when it is a non-empty word
    of literal characters and the path is absolute, is refused only after
    the GET: exactly one GET is sent and no PATCH, whatever the server
    does, and when the GET returns, the invocation exits with one result,
    the failure that asks to select an operation. *)
Theorem unsupported_operation_fails_after_get
    (server : Transport) (re_search : string -> string -> completion bool)
    (params : Params) (p : string) :
  let op := Str.lower (operation (object params)) in
  Re.literal op = true ->
  ~ In op [""; "get"; "replace"; "add"; "remove"; "move"; "test"] ->
  path (object params) = Some p ->
  Str.startswith "/" p = true ->
  network (snd (run server re_search params)) =
    [GET (url_of params) (get_headers params)] /\
  (forall r,
     requests_get server (url_of params) (get_headers params) = Some r ->
     run server re_search params =
       (Raise (SystemExit 1),
        {| network := [GET (url_of params) (get_headers params)];
           results := [refusal select_operation] |})).
Proof.
  cbv zeta. intros Hl Hn Hp Hs.
  assert (Hget : (Str.lower (operation (object params)) == "get") = false).
  { apply String.eqb_neq. intros E. apply Hn. rewrite E. simpl. auto. }
  assert (Hk : Re.search_word (Str.lower (operation (object params)))
                 "replace|add|remove|move|test" = false).
  { destruct (Re.search_word _ _) eqn:E; [| reflexivity].
    exfalso. apply Hn. apply (search_word_literal _ Hl) in E.
    simpl in E. simpl. intuition. }
  unfold run. rewrite (main_reaches_choice _ _ _ _ Hget Hp Hs).
  destruct (requests_get server _ _) as [g |].
  - unfold known_operation. rewrite Hl, Hk.
    split; [reflexivity | intros r _; reflexivity].
  - split; [reflexivity | discriminate].
Qed.

Lemma unsupported_operation_fails_after_get_witness :
  run (Fixture.server (Some (Fixture.response 200 (Fixture.data_k "old"))) None)
      Fixture.no_regex
      (Fixture.request "Delete" (Some "/data/k") None None) =
    (Raise (SystemExit 1),
     {| network :=
          [GET "https://myocp.companyname.local:443/api/v1/namespaces/ns/configmaps/cm1"
             [("Content-Type", "application/json");
              ("Accept", "application/json");
              ("pretty", "true");
              ("Authorization", "Bearer t0k3n")]];
        results := [refusal select_operation] |}).
Proof.
  refine (proj2 (unsupported_operation_fails_after_get
                   (Fixture.server
                      (Some (Fixture.response 200 (Fixture.data_k "old"))) None)
                   Fixture.no_regex
                   (Fixture.request "Delete" (Some "/data/k") None None)
                   "/data/k" _ _ _ _)
                (Fixture.response 200 (Fixture.data_k "old")) _).
  - reflexivity.
  - simpl. intros H. repeat (destruct H as [H | H]; [discriminate H |]). exact H.
  - reflexivity.
  - reflexivity.
  - reflexivity.
Defined.

(** C3, as stated, fails: for the operation [delete] the GET is sent
    before the refusal is reported. *)
Lemma unsupported_operation_contacts_server :
  let params := Fixture.request "delete" (Some "/data/k") None None in
  let server :=
    Fixture.server (Some (Fixture.response 200 (Fixture.data_k "old"))) None in
  let outcome := run server Fixture.no_regex params in
  ~ In (operation (object params))
       ["get"; "replace"; "add"; "remove"; "move"; "test"] /\
  fst outcome = Raise (SystemExit 1) /\
  results (snd outcome) = [refusal select_operation] /\
  network (snd outcome) = [GET (url_of params) (get_headers params)] /\
  network (snd outcome) <> [].
Proof.
  cbv zeta. split; [| repeat split; try reflexivity; discriminate].
  simpl. intros H. repeat (destruct H as [H | H]; [discriminate H |]). exact H.
Qed.



(** With a trailing slash the gate does not see what the path holds: an
    add on [/data/k/], where [/data/k] is a mapping, looks the empty key
    up, reads the path as absent and sends its PATCH for [/data/k]. *)
Lemma add_with_trailing_slash_sends_patch :
  let prior :=
    Fixture.response 200 (JObj [("data", JObj [("k", JObj [("a", JStr "b")])])]) in
  let server := Fixture.server (Some prior) (Some prior) in
  let params := Fixture.request "add" (Some "/data/k/") (Some (JStr "new")) None in
  present (resp_json prior) (pointer (Str.rstrip "/" "/data/k/"))
    (JObj [("a", JStr "b")]) /\
  network (snd (run server Fixture.no_regex params)) =
    [GET (url_of params) (get_headers params);
     PATCH (url_of params) (patch_headers params)
       (json_dumps
          (JArr [JObj [("op", JStr "add"); ("path", JStr "/data/k");
                       ("value", JStr "new")]]))].
Proof.
  cbv zeta. split.
  - eapply present_below; [reflexivity |].
    eapply present_below; [reflexivity |]. apply present_here.
  - reflexivity.
Qed.


(** C9. The sentinel collides with data: with the literal string
    [FailedKeyError] present at the request path of the prior body, a
    replace is stopped with the failure that says the path does not exist
    and only the GET is sent, while an add goes on to send its PATCH. *)
Theorem sentinel_collides_with_data :
  exists (body : JsonValue) (p : string),
    let server :=
      Fixture.server (Some (Fixture.response 200 body))
                     (Some (Fixture.response 200 body)) in
    let replace := Fixture.request "replace" (Some p) (Some (JStr "x")) None in
    let add := Fixture.request "add" (Some p) (Some (JStr "x")) None in
    present body (pointer p) (JStr "FailedKeyError") /\
    getPathValueFromDict body p = Return FailedKeyError /\
    run server Fixture.no_regex replace =
      (Raise (SystemExit 1),
       {| network := [GET (url_of replace) (get_headers replace)];
          results :=
            [report Failure
               "NO CHANGE: Path does not already exist, consider using add method"
               false body NA NA NA NA] |}) /\
    exists data,
      network (snd (run server Fixture.no_regex add)) =
        [GET (url_of add) (get_headers add);
         PATCH (url_of add) (patch_headers add) data].
Proof.
  exists (JObj [("metadata", JObj [("note", JStr "FailedKeyError")])]),
         "/metadata/note".
  cbv zeta. split; [| split; [| split]].
  - eapply present_below; [reflexivity |].
    eapply present_below; [reflexivity |]. apply present_here.
  - reflexivity.
  - reflexivity.
  - eexists. reflexivity.
Qed.


(** * Further properties of the module *)


Section Exclusive.

Lemma present_unique root ptr v :
  present root ptr v -> forall w, present root ptr w -> w = v.
Proof.
  induction 1 as [root | d k v rest w Hk _ IH]; intros w' H'.
  - now inversion H'.
  - inversion H'; subst. apply IH. congruence.
Qed.

Lemma present_not_missing root ptr v :
  present root ptr v -> ~ missing_key root ptr.
Proof.
  induction 1 as [root | d k v rest w Hk _ IH]; intros H'; inversion H'; subst.
  - congruence.
  - apply IH. congruence.
Qed.

Lemma present_not_non_container root ptr v :
  present root ptr v -> ~ non_container root ptr.
Proof.
  induction 1 as [root | d k v rest w Hk _ IH]; intros H'; inversion H'; subst.
  - discriminate.
  - apply IH. congruence.
Qed.

Lemma missing_not_non_container root ptr :
  missing_key root ptr -> ~ non_container root ptr.
Proof.
  induction 1 as [d k rest Hk | d k v rest Hk _ IH]; intros H'; inversion H';
    subst; first [discriminate | congruence | apply IH; congruence].
Qed.

End Exclusive.

(** X1. Every resolution is exactly one of three: the pointer is present,
    at one sub-value, which is returned; or the walk meets a mapping
    without the next key and the sentinel is returned; or the walk meets
    a value that is not a mapping and the resolver's own exception is
    raised.  The three cases exclude each other, and no [KeyError] or
    [TypeError] escapes. *)
Theorem resolution_trichotomy (root : JsonValue) (path : string) :
  (exists v,
     present root (pointer path) v /\
     (forall w, present root (pointer path) w -> w = v) /\
     getPathValueFromDict root path = Return v /\
     ~ missing_key root (pointer path) /\
     ~ non_container root (pointer path)) \/
  (missing_key root (pointer path) /\
   getPathValueFromDict root path = Return FailedKeyError /\
   (forall v, ~ present root (pointer path) v) /\
   ~ non_container root (pointer path)) \/
  (non_container root (pointer path) /\
   getPathValueFromDict root path =
     Raise (Exception getPathValueFromDict_failure) /\
   (forall v, ~ present root (pointer path) v) /\
   ~ missing_key root (pointer path)).
Proof.
  destruct (walk_cases root (pointer path)) as [[v H] | [H | H]].
  - left. exists v. split; [exact H |].
    split; [apply (present_unique _ _ _ H) |].
    split; [now apply getPathValueFromDict_present |].
    split; [apply (present_not_missing _ _ _ H)
           | apply (present_not_non_container _ _ _ H)].
  - right; left. split; [exact H |].
    split; [now apply getPathValueFromDict_missing |].
    split; [| apply (missing_not_non_container _ _ H)].
    intros v Hv. exact (present_not_missing _ _ _ Hv H).
  - right; right. split; [exact H |].
    split; [now apply getPathValueFromDict_non_container |].
    split; intros.
    + intros Hv. exact (present_not_non_container _ _ _ Hv H).
    + intros Hm. exact (missing_not_non_container _ _ Hm H).
Qed.

(** X2. Resolution composes along the path: when [p] leads to [v],
    resolving [p/q] from the root is resolving [/q] from [v]. *)
Theorem resolution_composes (root v : JsonValue) (p q : string) :
  present root (pointer p) v ->
  getPathValueFromDict root (p ++ "/" ++ q) =
  getPathValueFromDict v ("/" ++ q).
Proof.
  apply getPathValueFromDict_app.
Qed.

Lemma resolution_composes_witness :
  getPathValueFromDict (Fixture.data_k "old") ("/data" ++ "/" ++ "k") =
  getPathValueFromDict (JObj [("k", JStr "old")]) ("/" ++ "k").
Proof.
  apply (resolution_composes (Fixture.data_k "old") (JObj [("k", JStr "old")])
           "/data" "k").
  eapply present_below; [reflexivity | apply present_here].
Defined.

(** X3. A trailing slash adds a lookup of the empty key: when [p] leads
    to [v], resolving [p/] raises if [v] is not a mapping, and otherwise
    returns what [v] holds under the empty key, or the sentinel. *)
Theorem trailing_slash_resolution (root v : JsonValue) (p : string) :
  present root (pointer p) v ->
  getPathValueFromDict root (p ++ "/") =
  match v with
  | JObj d =>
      match dict_get d "" with
      | Some w => Return w
      | None => Return FailedKeyError
      end
  | _ => Raise (Exception getPathValueFromDict_failure)
  end.
Proof.
  intros H. rewrite (getPathValueFromDict_app root v p "" H).
  destruct v as [| b | n | s | items | d]; try reflexivity.
  unfold getPathValueFromDict. simpl. destruct (dict_get d ""); reflexivity.
Qed.

Lemma trailing_slash_resolution_witness :
  getPathValueFromDict (Fixture.data_k "old") ("/data/k" ++ "/") =
    Raise (Exception getPathValueFromDict_failure) /\
  getPathValueFromDict (Fixture.data_k "old") ("/data" ++ "/") =
    Return FailedKeyError.
Proof.
  split.
  - apply (trailing_slash_resolution (Fixture.data_k "old") (JStr "old")
             "/data/k").
    eapply present_below; [reflexivity |].
    eapply present_below; [reflexivity | apply present_here].
  - apply (trailing_slash_resolution (Fixture.data_k "old")
             (JObj [("k", JStr "old")]) "/data").
    eapply present_below; [reflexivity | apply present_here].
Defined.

(** X4. Whatever precedes the first slash is dropped: a path that does
    not begin with a slash resolves as if its first segment were empty. *)
Theorem leading_segment_ignored (root : JsonValue) (s rest : string) :
  Str.mem "/" s = false ->
  getPathValueFromDict root (s ++ "/" ++ rest) =
  getPathValueFromDict root ("/" ++ rest).
Proof.
  intros H. unfold getPathValueFromDict.
  fold (pointer (s ++ "/" ++ rest)). fold (pointer ("/" ++ rest)).
  change (s ++ "/" ++ rest) with (s ++ String "/" rest).
  change ("/" ++ rest) with ("" ++ String "/" rest).
  rewrite !pointer_app. unfold pointer. rewrite (split_without_sep _ _ H).
  reflexivity.
Qed.

Lemma leading_segment_ignored_witness :
  getPathValueFromDict (Fixture.data_k "old") ("data" ++ "/" ++ "k") =
  getPathValueFromDict (Fixture.data_k "old") ("/" ++ "k").
Proof.
  apply (leading_segment_ignored (Fixture.data_k "old") "data" "k").
  reflexivity.
Defined.

(** X5. The gate reads a path as absent exactly when the walk meets a
    missing key or the path holds the string [FailedKeyError]. *)
Theorem gate_reads_absent_iff (root : JsonValue) (path : string) :
  (exists v, getPathValueFromDict root path = Return v /\
             py_eq v FailedKeyError = true) <->
  missing_key root (pointer path) \/
  present root (pointer path) (JStr "FailedKeyError").
Proof.
  split.
  - intros [v [Hv He]]. apply py_eq_sentinel in He. subst v.
    destruct (walk_cases root (pointer path)) as [[w H] | [H | H]].
    + right. rewrite (getPathValueFromDict_present _ _ _ H) in Hv.
      injection Hv as ->. exact H.
    + now left.
    + rewrite (getPathValueFromDict_non_container _ _ H) in Hv. discriminate.
  - intros [H | H]; exists FailedKeyError; split; try reflexivity.
    + now apply getPathValueFromDict_missing.
    + now apply getPathValueFromDict_present.
Qed.

Lemma gate_reads_absent_iff_witness :
  exists v, getPathValueFromDict (Fixture.data_k "old") "/data/j" = Return v /\
            py_eq v FailedKeyError = true.
Proof.
  apply (proj2 (gate_reads_absent_iff (Fixture.data_k "old") "/data/j")).
  left. eapply missing_below; [reflexivity |]. apply missing_here. reflexivity.
Defined.

(** ** The classifier, row by row *)

Section ClassifierRows.

Lemma getitem_raise a k e :
  getitem a k = Raise e -> e = KeyError k \/ e = TypeError.
Proof.
  unfold getitem. destruct a; try (intros [= <-]; now right).
  destruct (dict_get fields k); [discriminate | intros [= <-]; now left].
Qed.

Lemma py_in_raise s m e : py_in s m = Raise e -> e = TypeError.
Proof.
  destruct m; simpl; congruence.
Qed.

Lemma apiResponse_reports params apiResult getResult st :
  let r := apiResponse params apiResult getResult st in
  network (snd r) = network st /\
  match fst r with
  | Return _ => results (snd r) = results st
  | Raise (SystemExit code) =>
      exists o,
        results (snd r) = (results st ++ [o])%list /\
        code = match terminal o with Success => 0 | Failure => 1 end
  | Raise _ => results (snd r) = results st
  end.
Proof.
  cbv zeta. remember (apiResponse params apiResult getResult st) as r eqn:E.
  unfold apiResponse, nonexistant_key, py_not, status_code_of, json_of,
    param_path, exit_json, fail_json, emit, raise, bind, ret, lift in E.
  repeat (break_match_in E; simpl in E);
    subst r; simpl; (split; [reflexivity |]);
    try reflexivity; try (eexists; split; reflexivity).
  all: repeat match goal with
       | H : getPathValueFromDict _ _ = Raise _ |- _ =>
           apply getPathValueFromDict_raise in H; subst
       | H : getitem _ _ = Raise _ |- _ =>
           apply getitem_raise in H; destruct H; subst
       | H : py_in _ _ = Raise _ |- _ => apply py_in_raise in H; subst
       end; reflexivity.
Qed.

Lemma truthy_2xx r :
  200 <= resp_status_code r <= 299 ->
  py_not (PyResponse r) = false /\
  ((200 <=? resp_status_code r) && (resp_status_code r <=? 299)) = true.
Proof.
  intros H. unfold py_not, ok.
  replace (400 <=? resp_status_code r) with false
    by (symmetry; apply Z.leb_gt; lia).
  replace (200 <=? resp_status_code r) with true
    by (symmetry; apply Z.leb_le; lia).
  replace (resp_status_code r <=? 299) with true
    by (symmetry; apply Z.leb_le; lia).
  split; reflexivity.
Qed.

Lemma apiResponse_compares params r g p a b st :
  let op := Str.lower (operation (object params)) in
  In op ["replace"; "add"; "remove"] ->
  200 <= resp_status_code r <= 299 ->
  path (object params) = Some p ->
  getPathValueFromDict (resp_json r) p = Return a ->
  getPathValueFromDict (resp_json g) p = Return b ->
  apiResponse params (PyResponse r) (PyResponse g) st =
    (Raise (SystemExit 0),
     {| network := network st;
        results := (results st ++
          [report Success
             (if py_eq a b
              then "NO CHANGE: " ++ op ++
                   " successful, specified path already contained value."
              else "CHANGED: " ++ op ++
                   " successful, specified path was updated with new value.")
             false (resp_json r) (JNum (resp_status_code r)) a b NA])%list |}).
Proof.
  cbv zeta. intros Hop Hsc Hp Ha Hb. destruct (truthy_2xx r Hsc) as [Ht H2].
  unfold apiResponse. rewrite Ht.
  unfold status_code_of, json_of, param_path, bind, ret, lift.
  rewrite H2, Hp, Ha, Hb.
  simpl in Hop. destruct Hop as [E | [E | [E | []]]]; rewrite <- E;
    simpl; destruct (py_eq a b); reflexivity.
Qed.

(** Python's [==] is reflexive on a decoded body. *)
Lemma py_eq_refl : forall v, distinct_keys v = true -> py_eq v v = true.
Proof.
  fix IH 1. intros [| b | n | s | items | d]; simpl; intros H.
  - reflexivity.
  - apply Bool.eqb_reflx.
  - apply Z.eqb_refl.
  - apply String.eqb_refl.
  - induction items as [| x items IHl]; [reflexivity |].
    apply andb_true_iff in H as [Hx Hl].
    rewrite (IH x Hx). simpl. exact (IHl Hl).
  - rewrite Nat.eqb_refl. simpl.
    assert (G : forall pre suf,
               d = (pre ++ suf)%list ->
               (forall k x, In (k, x) pre -> fresh_key k suf = true) ->
               (fix all (d : list (string * JsonValue)) : bool :=
                  match d with
                  | [] => true
                  | (k, x) :: d' => fresh_key k d' && distinct_keys x && all d'
                  end) suf = true ->
               (fix sub (xs : list (string * JsonValue)) : bool :=
                  match xs with
                  | [] => true
                  | (k, x) :: xs' =>
                      match dict_get d k with
                      | Some y => (py_eq x y && sub xs')%bool
                      | None => false
                      end
                  end) suf = true).
    { intros pre suf. revert pre. induction suf as [| [k x] suf IHs];
        intros pre Hd Hpre Hall; [reflexivity |].
      apply andb_true_iff in Hall as [Hall Hrest].
      apply andb_true_iff in Hall as [Hfresh Hx].
      assert (Hget : dict_get d k = Some x).
      { rewrite Hd. clear - Hpre. induction pre as [| [k' x'] pre IHp]; simpl.
        - now rewrite String.eqb_refl.
        - pose proof (Hpre k' x' (or_introl eq_refl)) as Hk. simpl in Hk.
          apply andb_true_iff in Hk as [Hk _].
          rewrite String.eqb_sym. apply negb_true_iff in Hk. rewrite Hk.
          apply IHp. intros k0 x0 Hin. apply (Hpre k0 x0). now right. }
      rewrite Hget, (IH x Hx). simpl.
      apply (IHs (pre ++ [(k, x)])%list).
      - rewrite Hd, <- app_assoc. reflexivity.
      - intros k0 x0 Hin. apply in_app_or in Hin as [Hin | [[= <- <-] | []]].
        + pose proof (Hpre k0 x0 Hin) as Hk. simpl in Hk.
          now apply andb_true_iff in Hk as [_ Hk].
        + exact Hfresh.
      - exact Hrest. }
    apply (G [] d eq_refl); [intros k x [] | exact H].
Qed.

End ClassifierRows.

(** X6. The classifier sends nothing, and it reports at most one result:
    when it returns or raises an error it has reported none, and when it
    exits it has reported exactly one, with exit status 0 for
    [exit_json] and 1 for [fail_json]. *)
Theorem classifier_reports_at_most_once
    (params : Params) (apiResult getResult : PyObj) (st : Process) :
  let r := apiResponse params apiResult getResult st in
  network (snd r) = network st /\
  match fst r with
  | Return _ => results (snd r) = results st
  | Raise (SystemExit code) =>
      exists o,
        results (snd r) = (results st ++ [o])%list /\
        code = match terminal o with Success => 0 | Failure => 1 end
  | Raise _ => results (snd r) = results st
  end.
Proof.
  exact (apiResponse_reports params apiResult getResult st).
Qed.

(** X7. A 2xx answer to test, move or get is a success carrying the body
    and the status: [changed] is [False] for test and [True] for move and
    for get, [test] is [True] for test and ["N/A"] otherwise. *)
Theorem success_rows_for_test_move_get
    (params : Params) (r : Response) (getResult : PyObj) (st : Process) :
  let op := Str.lower (operation (object params)) in
  200 <= resp_status_code r <= 299 ->
  In op ["test"; "move"; "get"] ->
  exists o,
    apiResponse params (PyResponse r) getResult st =
      (Raise (SystemExit 0),
       {| network := network st; results := (results st ++ [o])%list |}) /\
    terminal o = Success /\
    changed o = Some (negb (op == "test")) /\
    test o = Some (if op == "test" then JBool true else NA) /\
    json o = Some (resp_json r) /\
    status_code o = Some (JNum (resp_status_code r)) /\
    new_value o = Some NA /\ old_value o = Some NA.
Proof.
  cbv zeta. intros Hsc Hop. destruct (truthy_2xx r Hsc) as [Ht H2].
  unfold apiResponse. rewrite Ht.
  unfold status_code_of, json_of, bind, ret. rewrite H2.
  simpl in Hop. destruct Hop as [E | [E | [E | []]]]; rewrite <- E;
    eexists; (split; [reflexivity |]); simpl; auto 10.
Qed.

Lemma success_rows_for_test_move_get_witness :
  exists o,
    apiResponse (Fixture.request "get" None None None)
      (PyResponse (Fixture.response 200 JNull)) PyEmptyDict start =
      (Raise (SystemExit 0), {| network := []; results := [o] |}) /\
    terminal o = Success /\ changed o = Some true.
Proof.
  destruct (success_rows_for_test_move_get
              (Fixture.request "get" None None None)
              (Fixture.response 200 JNull) PyEmptyDict start)
    as [o [H1 [H2 [H3 _]]]].
  - simpl. lia.
  - simpl. auto.
  - exists o. split; [exact H1 | split; [exact H2 | exact H3]].
Defined.

(** X8. A 401 answer to an operation other than replace and add is the
    failure that asks to check the credentials. *)
Theorem refused_credentials
    (params : Params) (r : Response) (getResult : PyObj) (st : Process) :
  let op := Str.lower (operation (object params)) in
  resp_status_code r = 401 ->
  op <> "replace" -> op <> "add" ->
  apiResponse params (PyResponse r) getResult st =
    (Raise (SystemExit 1),
     {| network := network st;
        results := (results st ++
          [report Failure
             "FAILURE: Server refused action, check your credentials."
             false (resp_json r) (JNum 401) NA NA NA])%list |}).
Proof.
  cbv zeta. intros Hsc Hr Ha.
  apply String.eqb_neq in Hr, Ha.
  unfold apiResponse, py_not, ok, status_code_of, json_of, bind, ret.
  rewrite Hsc, Hr, Ha. reflexivity.
Qed.

Lemma refused_credentials_witness :
  apiResponse (Fixture.request "test" (Some "/data/k") (Some JNull) None)
    (PyResponse (Fixture.response 401 JNull)) PyEmptyDict start =
    (Raise (SystemExit 1),
     {| network := [];
        results :=
          [report Failure
             "FAILURE: Server refused action, check your credentials."
             false JNull (JNum 401) NA NA NA] |}).
Proof.
  apply (refused_credentials
           (Fixture.request "test" (Some "/data/k") (Some JNull) None)
           (Fixture.response 401 JNull) PyEmptyDict start);
    [reflexivity | discriminate | discriminate].
Defined.

(** X9. A 500 answer whose body is a mapping with a string [message]
    that contains [Unable to remove nonexistant key:] is, for remove, a
    success with [changed] [False], and, for move, a failure. *)
Theorem absent_key_rows_for_remove_and_move
    (params : Params) (r : Response) (getResult : PyObj) (st : Process)
    (fields : list (string * JsonValue)) (message : string) :
  let op := Str.lower (operation (object params)) in
  resp_status_code r = 500 ->
  resp_json r = JObj fields ->
  dict_get fields "message" = Some (JStr message) ->
  Str.contains "Unable to remove nonexistant key:" message = true ->
  (op = "remove" ->
   apiResponse params (PyResponse r) getResult st =
     (Raise (SystemExit 0),
      {| network := network st;
         results := (results st ++
           [report Success
              "NO CHANGE: Key to be removed is already non-existant"
              false (resp_json r) (JNum 500) NA NA NA])%list |})) /\
  (op = "move" ->
   apiResponse params (PyResponse r) getResult st =
     (Raise (SystemExit 1),
      {| network := network st;
         results := (results st ++
           [report Failure
              "FAILED: Key to be moved does not exist in this path."
              false (resp_json r) (JNum 500) NA NA NA])%list |})).
Proof.
  cbv zeta. intros Hsc Hj Hm Hc.
  split; intros Hop;
    unfold apiResponse, nonexistant_key, py_not, ok, status_code_of, json_of,
      bind, ret, lift;
    rewrite Hop, Hsc, Hj; simpl; rewrite Hm; simpl; rewrite Hc; reflexivity.
Qed.

Lemma absent_key_rows_for_remove_and_move_witness :
  let body :=
    JObj [("message", JStr "Unable to remove nonexistant key: missing")] in
  apiResponse (Fixture.request "remove" (Some "/data/missing") None None)
    (PyResponse (Fixture.response 500 body)) PyEmptyDict start =
    (Raise (SystemExit 0),
     {| network := [];
        results :=
          [report Success "NO CHANGE: Key to be removed is already non-existant"
             false body (JNum 500) NA NA NA] |}) /\
  apiResponse
    (Fixture.request "move" (Some "/data/new") None (Some "/data/missing"))
    (PyResponse (Fixture.response 500 body)) PyEmptyDict start =
    (Raise (SystemExit 1),
     {| network := [];
        results :=
          [report Failure "FAILED: Key to be moved does not exist in this path."
             false body (JNum 500) NA NA NA] |}).
Proof.
  cbv zeta. split.
  - apply (proj1 (absent_key_rows_for_remove_and_move
                    (Fixture.request "remove" (Some "/data/missing") None None)
                    (Fixture.response 500
                       (JObj [("message",
                               JStr "Unable to remove nonexistant key: missing")]))
                    PyEmptyDict start
                    [("message", JStr "Unable to remove nonexistant key: missing")]
                    "Unable to remove nonexistant key: missing"
                    eq_refl eq_refl eq_refl eq_refl)).
    reflexivity.
  - apply (proj2 (absent_key_rows_for_remove_and_move
                    (Fixture.request "move" (Some "/data/new") None
                       (Some "/data/missing"))
                    (Fixture.response 500
                       (JObj [("message",
                               JStr "Unable to remove nonexistant key: missing")]))
                    PyEmptyDict start
                    [("message", JStr "Unable to remove nonexistant key: missing")]
                    "Unable to remove nonexistant key: missing"
                    eq_refl eq_refl eq_refl eq_refl)).
    reflexivity.
Defined.

(** X10. A 500 answer to remove or move whose body is a mapping without
    a [message] key makes the classifier raise [KeyError]; nothing is
    reported. *)
Theorem remove_500_without_message_raises
    (params : Params) (r : Response) (getResult : PyObj) (st : Process)
    (fields : list (string * JsonValue)) :
  let op := Str.lower (operation (object params)) in
  resp_status_code r = 500 ->
  resp_json r = JObj fields ->
  dict_get fields "message" = None ->
  op = "remove" \/ op = "move" ->
  apiResponse params (PyResponse r) getResult st =
    (Raise (KeyError "message"), st).
Proof.
  cbv zeta. intros Hsc Hj Hm Hop.
  unfold apiResponse, nonexistant_key, py_not, ok, status_code_of, json_of,
    bind, ret, lift.
  destruct Hop as [Hop | Hop]; rewrite Hop, Hsc, Hj; simpl; rewrite Hm;
    reflexivity.
Qed.

Lemma remove_500_without_message_raises_witness :
  apiResponse (Fixture.request "remove" (Some "/data/k") None None)
    (PyResponse (Fixture.response 500 (JObj [("reason", JStr "boom")])))
    PyEmptyDict start =
    (Raise (KeyError "message"), start).
Proof.
  apply (remove_500_without_message_raises
           (Fixture.request "remove" (Some "/data/k") None None)
           (Fixture.response 500 (JObj [("reason", JStr "boom")]))
           PyEmptyDict start [("reason", JStr "boom")]);
    [reflexivity | reflexivity | reflexivity | left; reflexivity].
Defined.

(** X11. After a 2xx answer to replace, add or remove, when the path
    resolves in both bodies, the result is a success that carries the
    value of the answer as [new_value] and the prior value as
    [old_value]; its message starts with NO CHANGE when the two are equal
    and with CHANGED otherwise. *)
Theorem comparison_selects_message
    (params : Params) (r g : Response) (p : string) (a b : JsonValue)
    (st : Process) :
  let op := Str.lower (operation (object params)) in
  In op ["replace"; "add"; "remove"] ->
  200 <= resp_status_code r <= 299 ->
  path (object params) = Some p ->
  getPathValueFromDict (resp_json r) p = Return a ->
  getPathValueFromDict (resp_json g) p = Return b ->
  apiResponse params (PyResponse r) (PyResponse g) st =
    (Raise (SystemExit 0),
     {| network := network st;
        results := (results st ++
          [report Success
             (if py_eq a b
              then "NO CHANGE: " ++ op ++
                   " successful, specified path already contained value."
              else "CHANGED: " ++ op ++
                   " successful, specified path was updated with new value.")
             false (resp_json r) (JNum (resp_status_code r)) a b NA])%list |}).
Proof.
  exact (apiResponse_compares params r g p a b st).
Qed.

Lemma comparison_selects_message_witness :
  apiResponse
    (Fixture.request "add" (Some "/data/k") (Some (JStr "new")) None)
    (PyResponse (Fixture.response 201 (Fixture.data_k "new")))
    (PyResponse (Fixture.response 200 (JObj [("data", JObj [])]))) start =
    (Raise (SystemExit 0),
     {| network := [];
        results :=
          [report Success
             "CHANGED: add successful, specified path was updated with new value."
             false (Fixture.data_k "new") (JNum 201) (JStr "new")
             FailedKeyError NA] |}).
Proof.
  apply (comparison_selects_message
           (Fixture.request "add" (Some "/data/k") (Some (JStr "new")) None)
           (Fixture.response 201 (Fixture.data_k "new"))
           (Fixture.response 200 (JObj [("data", JObj [])]))
           "/data/k" (JStr "new") FailedKeyError start).
  - simpl. auto.
  - simpl. lia.
  - reflexivity.
  - reflexivity.
  - reflexivity.
Defined.

(** X12. When the answer and the prior body hold the same value at the
    path (a decoded value, its mappings with distinct keys), the message
    is the NO CHANGE one. *)
Theorem unchanged_value_reports_no_change
    (params : Params) (r g : Response) (p : string) (a : JsonValue)
    (st : Process) :
  let op := Str.lower (operation (object params)) in
  In op ["replace"; "add"; "remove"] ->
  200 <= resp_status_code r <= 299 ->
  path (object params) = Some p ->
  getPathValueFromDict (resp_json r) p = Return a ->
  getPathValueFromDict (resp_json g) p = Return a ->
  distinct_keys a = true ->
  apiResponse params (PyResponse r) (PyResponse g) st =
    (Raise (SystemExit 0),
     {| network := network st;
        results := (results st ++
          [report Success
             ("NO CHANGE: " ++ op ++
              " successful, specified path already contained value.")
             false (resp_json r) (JNum (resp_status_code r)) a a NA])%list |}).
Proof.
  cbv zeta. intros Hop Hsc Hp Ha Hb Hd.
  rewrite (apiResponse_compares params r g p a a st Hop Hsc Hp Ha Hb).
  now rewrite (py_eq_refl a Hd).
Qed.

Lemma unchanged_value_reports_no_change_witness :
  let same := JObj [("a", JNum 1); ("b", JArr [JBool true; JNull])] in
  let body := JObj [("data", same)] in
  apiResponse
    (Fixture.request "replace" (Some "/data") (Some same) None)
    (PyResponse (Fixture.response 200 body))
    (PyResponse (Fixture.response 200 body)) start =
    (Raise (SystemExit 0),
     {| network := [];
        results :=
          [report Success
             "NO CHANGE: replace successful, specified path already contained value."
             false body (JNum 200) same same NA] |}).
Proof.
  cbv zeta.
  apply (unchanged_value_reports_no_change
           (Fixture.request "replace" (Some "/data")
              (Some (JObj [("a", JNum 1); ("b", JArr [JBool true; JNull])])) None)
           (Fixture.response 200
              (JObj [("data", JObj [("a", JNum 1); ("b", JArr [JBool true; JNull])])]))
           (Fixture.response 200
              (JObj [("data", JObj [("a", JNum 1); ("b", JArr [JBool true; JNull])])]))
           "/data" (JObj [("a", JNum 1); ("b", JArr [JBool true; JNull])]) start).
  - simpl. auto.
  - simpl. lia.
  - reflexivity.
  - reflexivity.
  - reflexivity.
  - reflexivity.
Defined.

(** X13. A status outside 200..299 other than 401 and 500 is the generic
    failure, with [test] [False], provided the operation is neither
    replace nor add or the status is outside 400..599. *)
Theorem unlisted_status_is_generic_failure
    (params : Params) (r : Response) (getResult : PyObj) (st : Process) :
  let sc := resp_status_code r in
  let op := Str.lower (operation (object params)) in
  ~ 200 <= sc <= 299 -> sc <> 401 -> sc <> 500 ->
  (op <> "replace" /\ op <> "add") \/ ~ 400 <= sc < 600 ->
  apiResponse params (PyResponse r) getResult st =
    (Raise (SystemExit 1),
     {| network := network st;
        results := (results st ++
          [report Failure "FAILED: API call returned failure code."
             false (resp_json r) (JNum sc) NA NA (JBool false)])%list |}).
Proof.
  exact (apiResponse_unlisted_status_fails params r getResult st).
Qed.

Lemma unlisted_status_is_generic_failure_witness :
  apiResponse (Fixture.request "remove" (Some "/data/k") None None)
    (PyResponse (Fixture.response 404 JNull)) PyEmptyDict start =
    (Raise (SystemExit 1),
     {| network := [];
        results :=
          [report Failure "FAILED: API call returned failure code."
             false JNull (JNum 404) NA NA (JBool false)] |}) /\
  apiResponse (Fixture.request "replace" (Some "/data/k") (Some JNull) None)
    (PyResponse (Fixture.response 302 JNull)) PyEmptyDict start =
    (Raise (SystemExit 1),
     {| network := [];
        results :=
          [report Failure "FAILED: API call returned failure code."
             false JNull (JNum 302) NA NA (JBool false)] |}).
Proof.
  split.
  - apply (unlisted_status_is_generic_failure
             (Fixture.request "remove" (Some "/data/k") None None)
             (Fixture.response 404 JNull) PyEmptyDict start).
    + simpl. lia.
    + discriminate.
    + discriminate.
    + left. split; discriminate.
  - apply (unlisted_status_is_generic_failure
             (Fixture.request "replace" (Some "/data/k") (Some JNull) None)
             (Fixture.response 302 JNull) PyEmptyDict start).
    + simpl. lia.
    + discriminate.
    + discriminate.
    + right. simpl. lia.
Defined.

(** X14. An answer with a status in 400..599 is falsy, so for replace and
    for add the classifier takes it for the skipped call: it reports the
    gate's failure, with the prior body as [json], whatever the status. *)
Theorem error_answer_to_replace_or_add
    (params : Params) (r g : Response) (st : Process) :
  let op := Str.lower (operation (object params)) in
  400 <= resp_status_code r < 600 ->
  (op = "replace" ->
   apiResponse params (PyResponse r) (PyResponse g) st =
     (Raise (SystemExit 1),
      {| network := network st;
         results := (results st ++
           [report Failure
              "NO CHANGE: Path does not already exist, consider using add method"
              false (resp_json g) NA NA NA NA])%list |})) /\
  (op = "add" ->
   apiResponse params (PyResponse r) (PyResponse g) st =
     (Raise (SystemExit 1),
      {| network := network st;
         results := (results st ++
           [report Failure
              "NO CHANGE: Path already exists, consider using replace method."
              false (resp_json g) NA NA NA NA])%list |})).
Proof.
  cbv zeta. intros Hsc.
  assert (Hf : py_not (PyResponse r) = true).
  { unfold py_not, ok. rewrite negb_involutive. apply andb_true_iff.
    split; [apply Z.leb_le | apply Z.ltb_lt]; lia. }
  split; intros Hop; unfold apiResponse; rewrite Hf, Hop; reflexivity.
Qed.

Lemma error_answer_to_replace_or_add_witness :
  apiResponse (Fixture.request "replace" (Some "/data/k") (Some JNull) None)
    (PyResponse (Fixture.response 401 JNull))
    (PyResponse (Fixture.response 200 (Fixture.data_k "old"))) start =
    (Raise (SystemExit 1),
     {| network := [];
        results :=
          [report Failure
             "NO CHANGE: Path does not already exist, consider using add method"
             false (Fixture.data_k "old") NA NA NA NA] |}) /\
  apiResponse (Fixture.request "add" (Some "/data/j") (Some JNull) None)
    (PyResponse (Fixture.response 500 JNull))
    (PyResponse (Fixture.response 200 (Fixture.data_k "old"))) start =
    (Raise (SystemExit 1),
     {| network := [];
        results :=
          [report Failure
             "NO CHANGE: Path already exists, consider using replace method."
             false (Fixture.data_k "old") NA NA NA NA] |}).
Proof.
  split.
  - apply (proj1 (error_answer_to_replace_or_add
                    (Fixture.request "replace" (Some "/data/k") (Some JNull) None)
                    (Fixture.response 401 JNull)
                    (Fixture.response 200 (Fixture.data_k "old")) start
                    ltac:(simpl; lia))).
    reflexivity.
  - apply (proj2 (error_answer_to_replace_or_add
                    (Fixture.request "add" (Some "/data/j") (Some JNull) None)
                    (Fixture.response 500 JNull)
                    (Fixture.response 200 (Fixture.data_k "old")) start
                    ltac:(simpl; lia))).
    reflexivity.
Defined.

(** ** Invocations, end to end *)

Section Gate.

Variable server : Transport.
Variable re_search : string -> string -> completion bool.

Lemma try_fail_keeps_network {A} (m : M A) st :
  network (snd (try_except m is_Exception
                  (fun e => fail_json (module_failure e)) st)) =
  network (snd (m st)).
Proof.
  unfold try_except. destruct (m st) as [[a | e] st']; [reflexivity |].
  destruct (is_Exception e); reflexivity.
Qed.

Lemma known_operation_keeps_state op st :
  snd (known_operation re_search op st) = st.
Proof.
  unfold known_operation. destruct (Re.literal op); reflexivity.
Qed.

(** [patchObject] once the path has been resolved in the prior body. *)
Lemma patchObject_steps params g p v st :
  let op := Str.lower (operation (object params)) in
  path (object params) = Some p ->
  getPathValueFromDict (resp_json g) p = Return v ->
  patchObject server params g st =
    if py_eq v FailedKeyError && (op == "replace") then
      (Raise (SystemExit 1),
       {| network := network st;
          results := (results st ++
            [report Failure
               "NO CHANGE: Path does not already exist, consider using add method"
               false (resp_json g) NA NA NA NA])%list |})
    else if negb (py_eq v FailedKeyError) && (op == "add") then
      (Raise (SystemExit 1),
       {| network := network st;
          results := (results st ++
            [report Failure
               "NO CHANGE: Path already exists, consider using replace method."
               false (resp_json g) NA NA NA NA])%list |})
    else
      (payload <- payload_of params ;;
       try_except
         (r <- HTTPRequest_patch server
                 {| apiUrl := endpoint_of params;
                    headers := patch_headers params;
                    payload := json_dumps payload |} ;;
          apiResponse params (PyResponse r) (PyResponse g))
         (fun _ => true)
         (fun _ => raise (Exception patchObject_failure))) st.
Proof.
  cbv zeta. intros Hp Hv. unfold patchObject, param_path. rewrite Hp.
  unfold bind at 1. unfold ret at 1. cbv beta iota.
  unfold bind at 1. unfold lift at 1. rewrite Hv.
  unfold bind at 1.
  destruct (py_eq v FailedKeyError); cbn [negb andb];
    destruct (Str.lower (operation (object params)) == _) eqn:E;
    try reflexivity;
    apply String.eqb_eq in E; unfold apiResponse; rewrite E; reflexivity.
Qed.

(** The attempt: the PATCH is sent, and whatever the classifier does the
    attempt returns or raises the [patchObject] failure. *)
Lemma patch_attempt params g doc st :
  let r :=
    try_except
      (r <- HTTPRequest_patch server
              {| apiUrl := endpoint_of params;
                 headers := patch_headers params;
                 payload := json_dumps doc |} ;;
       apiResponse params (PyResponse r) (PyResponse g))
      (fun _ => true)
      (fun _ => raise (Exception patchObject_failure)) st in
  network (snd r) =
    (network st ++
     [PATCH (url_of params) (patch_headers params) (json_dumps doc)])%list /\
  ((fst r = Return tt /\ results (snd r) = results st) \/
   (fst r = Raise (Exception patchObject_failure) /\
    (results (snd r) = results st \/
     exists o, results (snd r) = (results st ++ [o])%list))).
Proof.
  cbv zeta. unfold try_except, HTTPRequest_patch, bind, send. simpl.
  fold (url_of params).
  match goal with
  | |- context [requests_patch ?a ?b ?c ?d] =>
      destruct (requests_patch a b c d) as [r |]
  end; simpl; [| split; [reflexivity | right; split; [reflexivity | now left]]].
  match goal with
  | |- context [apiResponse ?a ?b ?c ?d] =>
      destruct (apiResponse_reports a b c d) as [Hn Hr];
      destruct (apiResponse a b c d) as [[[] | e] st2]
  end; simpl in *.
  - split; [exact Hn | left; split; [reflexivity | exact Hr]].
  - split; [exact Hn | right; split; [reflexivity |]].
    destruct e; try (now left). destruct Hr as [o [Hr _]]. right. now exists o.
Qed.

(** [main] for one of the five patching operations, after the GET. *)
Lemma main_patches params p g :
  let op := Str.lower (operation (object params)) in
  In op ["replace"; "add"; "remove"; "move"; "test"] ->
  path (object params) = Some p ->
  Str.startswith "/" p = true ->
  requests_get server (url_of params) (get_headers params) = Some g ->
  run server re_search params =
    try_except (patchObject server params g) is_Exception
      (fun e => fail_json (module_failure e))
      {| network := [GET (url_of params) (get_headers params)];
         results := [] |}.
Proof.
  cbv zeta. intros Hop Hp Hs Hg.
  assert (Hget : (Str.lower (operation (object params)) == "get") = false).
  { simpl in Hop. destruct Hop as [E | [E | [E | [E | [E | []]]]]];
      rewrite <- E; reflexivity. }
  unfold run. rewrite (main_reaches_choice _ _ _ _ Hget Hp Hs), Hg.
  unfold known_operation.
  simpl in Hop. destruct Hop as [E | [E | [E | [E | [E | []]]]]];
    rewrite <- E; reflexivity.
Qed.

End Gate.

(** X15. For an operation other than get, a request without a path
    raises [KeyError] and a request whose path does not begin with a
    slash is refused, in both cases before anything is sent. *)
Theorem relative_or_missing_path_stops_before_network
    (server : Transport) (re_search : string -> string -> completion bool)
    (params : Params) :
  Str.lower (operation (object params)) <> "get" ->
  (path (object params) = None ->
   run server re_search params = (Raise (KeyError "path"), start)) /\
  (forall p, path (object params) = Some p ->
     Str.startswith "/" p = false ->
     run server re_search params =
       (Raise (SystemExit 1),
        {| network := [];
           results :=
             [refusal "NO CHANGE: Declare an absolute path - e.g. /foo/baz."] |})).
Proof.
  intros Hget. apply String.eqb_neq in Hget.
  split; [intros Hp | intros p Hp Hs];
    unfold run, main, param_path; rewrite Hget, Hp; cbn [negb];
    unfold bind at 1 2; [reflexivity |].
  unfold ret at 1. cbv beta iota. rewrite Hs. reflexivity.
Qed.

Lemma relative_or_missing_path_stops_before_network_witness :
  let server :=
    Fixture.server (Some (Fixture.response 200 (Fixture.data_k "old"))) None in
  run server Fixture.no_regex (Fixture.request "remove" None None None) =
    (Raise (KeyError "path"), start) /\
  run server Fixture.no_regex
    (Fixture.request "remove" (Some "data/k") None None) =
    (Raise (SystemExit 1),
     {| network := [];
        results :=
          [refusal "NO CHANGE: Declare an absolute path - e.g. /foo/baz."] |}).
Proof.
  cbv zeta. split.
  - apply (proj1 (relative_or_missing_path_stops_before_network
                    (Fixture.server
                       (Some (Fixture.response 200 (Fixture.data_k "old"))) None)
                    Fixture.no_regex
                    (Fixture.request "remove" None None None)
                    ltac:(discriminate))).
    reflexivity.
  - apply (proj2 (relative_or_missing_path_stops_before_network
                    (Fixture.server
                       (Some (Fixture.response 200 (Fixture.data_k "old"))) None)
                    Fixture.no_regex
                    (Fixture.request "remove" (Some "data/k") None None)
                    ltac:(discriminate)) "data/k");
      reflexivity.
Defined.

(** X16. When the GET raises, for get or for a request with an absolute
    path, the handler of [main] hands the exception object to
    [fail_json], which raises [TypeError]: the invocation ends in that
    error with nothing reported, after that one GET. *)
Theorem get_transport_failure_ends_in_type_error
    (server : Transport) (re_search : string -> string -> completion bool)
    (params : Params) :
  let op := Str.lower (operation (object params)) in
  op = "get" \/
    (exists p, path (object params) = Some p /\ Str.startswith "/" p = true) ->
  requests_get server (url_of params) (get_headers params) = None ->
  run server re_search params =
    (Raise TypeError,
     {| network := [GET (url_of params) (get_headers params)];
        results := [] |}).
Proof.
  cbv zeta. intros Hcase Hg. unfold run.
  destruct (Str.lower (operation (object params)) == "get") eqn:Hget.
  - unfold main. rewrite Hget. cbn [negb]. unfold bind at 1 2. unfold ret at 1.
    cbv beta iota. unfold try_except at 1. rewrite getObject_sends_get, Hg.
    reflexivity.
  - destruct Hcase as [E | [p [Hp Hs]]].
    + rewrite E in Hget. discriminate.
    + rewrite (main_reaches_choice _ _ _ _ Hget Hp Hs), Hg. reflexivity.
Qed.

Lemma get_transport_failure_ends_in_type_error_witness :
  let params := Fixture.request "get" None None None in
  run (Fixture.server None None) Fixture.no_regex params =
    (Raise TypeError,
     {| network := [GET (url_of params) (get_headers params)];
        results := [] |}).
Proof.
  cbv zeta.
  apply (get_transport_failure_ends_in_type_error
           (Fixture.server None None) Fixture.no_regex
           (Fixture.request "get" None None None)).
  - left. reflexivity.
  - reflexivity.
Defined.

(** X17. A get whose GET is answered with a 2xx status exits with one
    success whose [changed] is [True]; answered with 500 it returns
    without reporting anything.  Only the GET is sent. *)
Theorem get_invocation
    (server : Transport) (re_search : string -> string -> completion bool)
    (params : Params) (r : Response) :
  Str.lower (operation (object params)) = "get" ->
  requests_get server (url_of params) (get_headers params) = Some r ->
  (200 <= resp_status_code r <= 299 ->
   run server re_search params =
     (Raise (SystemExit 0),
      {| network := [GET (url_of params) (get_headers params)];
         results :=
           [report Success "NO CHANGE: get sucessful." true (resp_json r)
              (JNum (resp_status_code r)) NA NA NA] |})) /\
  (resp_status_code r = 500 ->
   run server re_search params =
     (Return tt,
      {| network := [GET (url_of params) (get_headers params)];
         results := [] |})).
Proof.
  intros Hop Hg.
  assert (Hrun : run server re_search params =
    try_except (apiResponse params (PyResponse r) PyEmptyDict) is_Exception
      (fun e => fail_json (module_failure e))
      {| network := [GET (url_of params) (get_headers params)]; results := [] |}).
  { unfold run, main. rewrite Hop. cbn [String.eqb Ascii.eqb Bool.eqb negb].
    unfold bind at 1 2. unfold ret at 1. cbv beta iota.
    unfold try_except at 1. rewrite getObject_sends_get, Hg. reflexivity. }
  rewrite Hrun. split; intros Hsc.
  - destruct (truthy_2xx r Hsc) as [Ht H2].
    unfold try_except, apiResponse. rewrite Ht.
    unfold status_code_of, json_of, bind, ret. rewrite H2, Hop. reflexivity.
  - unfold try_except, apiResponse, py_not, ok, status_code_of, json_of,
      bind, ret.
    rewrite Hsc, Hop. reflexivity.
Qed.

Lemma get_invocation_witness :
  let params := Fixture.request "GET" None None None in
  run (Fixture.server (Some (Fixture.response 200 (Fixture.data_k "old"))) None)
      Fixture.no_regex params =
    (Raise (SystemExit 0),
     {| network := [GET (url_of params) (get_headers params)];
        results :=
          [report Success "NO CHANGE: get sucessful." true
             (Fixture.data_k "old") (JNum 200) NA NA NA] |}) /\
  run (Fixture.server (Some (Fixture.response 500 JNull)) None)
      Fixture.no_regex params =
    (Return tt,
     {| network := [GET (url_of params) (get_headers params)];
        results := [] |}).
Proof.
  cbv zeta. split.
  - apply (proj1 (get_invocation
                    (Fixture.server
                       (Some (Fixture.response 200 (Fixture.data_k "old"))) None)
                    Fixture.no_regex (Fixture.request "GET" None None None)
                    (Fixture.response 200 (Fixture.data_k "old"))
                    eq_refl eq_refl)).
    simpl. lia.
  - apply (proj2 (get_invocation
                    (Fixture.server (Some (Fixture.response 500 JNull)) None)
                    Fixture.no_regex (Fixture.request "GET" None None None)
                    (Fixture.response 500 JNull) eq_refl eq_refl)).
    reflexivity.
Defined.

(** X18. When the gate does not stop a patching request (the path
    resolves, a replace finds a value other than the sentinel, an add
    finds the sentinel) and the patch document is built, the GET is
    followed by one PATCH carrying that document.  The invocation then
    never ends through the classifier's own exit: either the classifier
    reported nothing and [main] returns, or whatever the attempt raised,
    the classifier's exit included, is caught by [patchObject], raised
    again as its exception, and the handler of [main] ends in
    [TypeError]; at most one result, the classifier's, was reported. *)
Theorem gate_lets_through
    (server : Transport) (re_search : string -> string -> completion bool)
    (params : Params) (p : string) (g : Response) (v doc : JsonValue) :
  let op := Str.lower (operation (object params)) in
  In op ["replace"; "add"; "remove"; "move"; "test"] ->
  path (object params) = Some p ->
  Str.startswith "/" p = true ->
  requests_get server (url_of params) (get_headers params) = Some g ->
  getPathValueFromDict (resp_json g) p = Return v ->
  (op = "replace" -> py_eq v FailedKeyError = false) ->
  (op = "add" -> py_eq v FailedKeyError = true) ->
  payload_of params start = (Return doc, start) ->
  let r := run server re_search params in
  network (snd r) =
    [GET (url_of params) (get_headers params);
     PATCH (url_of params) (patch_headers params) (json_dumps doc)] /\
  ((fst r = Return tt /\ results (snd r) = []) \/
   (fst r = Raise TypeError /\ (length (results (snd r)) <= 1)%nat)).
Proof.
  cbv zeta. intros Hop Hp Hs Hg Hv Hrep Hadd Hdoc.
  assert (G1 : py_eq v FailedKeyError &&
               (Str.lower (operation (object params)) == "replace") = false).
  { destruct (String.eqb_spec (Str.lower (operation (object params))) "replace")
      as [E | _]; [rewrite (Hrep E); reflexivity | apply andb_false_r]. }
  assert (G2 : negb (py_eq v FailedKeyError) &&
               (Str.lower (operation (object params)) == "add") = false).
  { destruct (String.eqb_spec (Str.lower (operation (object params))) "add")
      as [E | _]; [rewrite (Hadd E); reflexivity | apply andb_false_r]. }
  remember (run server re_search params) as r eqn:E.
  rewrite (main_patches _ _ _ _ _ Hop Hp Hs Hg) in E.
  unfold try_except at 1 in E.
  rewrite (patchObject_steps _ _ _ _ _ _ Hp Hv), G1, G2 in E.
  unfold bind at 1 in E.
  destruct (payload_of_pure params) as [c Hc].
  rewrite Hc in E. rewrite Hc in Hdoc. injection Hdoc as ->.
  match type of E with
  | context [try_except ?m ?c ?h ?st] =>
      destruct (patch_attempt server params g doc st) as [Hn Hr];
      destruct (try_except m c h st) as [[[] | e] st2]
  end; simpl in Hn, Hr.
  - subst r. split; [exact Hn |]. left.
    destruct Hr as [[_ Hr] | [Hr _]];
      [split; [reflexivity | exact Hr] | discriminate Hr].
  - destruct Hr as [[Hr _] | [He Hr]]; [discriminate |].
    injection He as ->. simpl in E. subst r. simpl.
    split; [exact Hn |]. right.
    split; [reflexivity |]. destruct Hr as [Hr | [o Hr]]; rewrite Hr; simpl; lia.
Qed.

Lemma gate_lets_through_witness :
  let params :=
    Fixture.request "replace" (Some "/data/k") (Some (JStr "new")) None in
  let r :=
    run (Fixture.server (Some (Fixture.response 200 (Fixture.data_k "old")))
           (Some (Fixture.response 200 (Fixture.data_k "new"))))
        Fixture.no_regex params in
  network (snd r) =
    [GET (url_of params) (get_headers params);
     PATCH (url_of params) (patch_headers params)
       (json_dumps
          (JArr [JObj [("op", JStr "replace"); ("path", JStr "/data/k");
                       ("value", JStr "new")]]))] /\
  ((fst r = Return tt /\ results (snd r) = []) \/
   (fst r = Raise TypeError /\ (length (results (snd r)) <= 1)%nat)).
Proof.
  cbv zeta.
  apply (gate_lets_through
           (Fixture.server (Some (Fixture.response 200 (Fixture.data_k "old")))
              (Some (Fixture.response 200 (Fixture.data_k "new"))))
           Fixture.no_regex
           (Fixture.request "replace" (Some "/data/k") (Some (JStr "new")) None)
           "/data/k" (Fixture.response 200 (Fixture.data_k "old"))
           (JStr "old")).
  - simpl. auto.
  - reflexivity.
  - reflexivity.
  - reflexivity.
  - reflexivity.
  - reflexivity.
  - discriminate.
  - reflexivity.
Defined.

(** X19. For a patching operation with an absolute path, when the walk
    through the prior body meets a value that is not a mapping, the
    resolver's exception reaches the handler of [main], whose [fail_json]
    raises [TypeError]: nothing is reported and only the GET was sent. *)
Theorem traversal_error_ends_in_type_error
    (server : Transport) (re_search : string -> string -> completion bool)
    (params : Params) (p : string) (g : Response) :
  let op := Str.lower (operation (object params)) in
  In op ["replace"; "add"; "remove"; "move"; "test"] ->
  path (object params) = Some p ->
  Str.startswith "/" p = true ->
  requests_get server (url_of params) (get_headers params) = Some g ->
  non_container (resp_json g) (pointer p) ->
  run server re_search params =
    (Raise TypeError,
     {| network := [GET (url_of params) (get_headers params)];
        results := [] |}).
Proof.
  cbv zeta. intros Hop Hp Hs Hg Hn.
  rewrite (main_patches _ _ _ _ _ Hop Hp Hs Hg).
  unfold try_except, patchObject, param_path. rewrite Hp.
  unfold bind at 1. unfold ret at 1. cbv beta iota.
  unfold bind at 1. unfold lift at 1.
  rewrite (getPathValueFromDict_non_container _ _ Hn). reflexivity.
Qed.

Lemma traversal_error_ends_in_type_error_witness :
  let params :=
    Fixture.request "replace" (Some "/data/k/") (Some (JStr "new")) None in
  run (Fixture.server (Some (Fixture.response 200 (Fixture.data_k "old"))) None)
      Fixture.no_regex params =
    (Raise TypeError,
     {| network := [GET (url_of params) (get_headers params)];
        results := [] |}).
Proof.
  cbv zeta.
  apply (traversal_error_ends_in_type_error
           (Fixture.server (Some (Fixture.response 200 (Fixture.data_k "old"))) None)
           Fixture.no_regex
           (Fixture.request "replace" (Some "/data/k/") (Some (JStr "new")) None)
           "/data/k/" (Fixture.response 200 (Fixture.data_k "old"))).
  - simpl. auto.
  - reflexivity.
  - reflexivity.
  - reflexivity.
  - eapply non_container_below; [reflexivity |].
    eapply non_container_below; [reflexivity |].
    apply non_container_here. reflexivity.
Defined.

(** X20. A replace, add or test that the gate does not stop and that
    carries no value raises [KeyError] on [value] before any PATCH; the
    handler of [main] then ends in [TypeError]: nothing is reported and
    only the GET was sent. *)
Theorem missing_value_ends_in_type_error
    (server : Transport) (re_search : string -> string -> completion bool)
    (params : Params) (p : string) (g : Response) (v : JsonValue) :
  let op := Str.lower (operation (object params)) in
  In op ["replace"; "add"; "test"] ->
  path (object params) = Some p ->
  Str.startswith "/" p = true ->
  requests_get server (url_of params) (get_headers params) = Some g ->
  getPathValueFromDict (resp_json g) p = Return v ->
  (op = "replace" -> py_eq v FailedKeyError = false) ->
  (op = "add" -> py_eq v FailedKeyError = true) ->
  value (object params) = None ->
  run server re_search params =
    (Raise TypeError,
     {| network := [GET (url_of params) (get_headers params)];
        results := [] |}).
Proof.
  cbv zeta. intros Hop Hp Hs Hg Hv Hrep Hadd Hval.
  assert (Hop5 : In (Str.lower (operation (object params)))
                    ["replace"; "add"; "remove"; "move"; "test"])
    by (simpl in *; intuition).
  rewrite (main_patches _ _ _ _ _ Hop5 Hp Hs Hg).
  unfold try_except at 1. rewrite (patchObject_steps _ _ _ _ _ _ Hp Hv).
  unfold payload_of, param_path. rewrite Hp, Hval.
  simpl in Hop. destruct Hop as [E | [E | [E | []]]]; rewrite <- E in *.
  - rewrite (Hrep eq_refl). reflexivity.
  - rewrite (Hadd eq_refl). reflexivity.
  - rewrite andb_false_r, andb_false_r. reflexivity.
Qed.

Lemma missing_value_ends_in_type_error_witness :
  let params := Fixture.request "test" (Some "/data/k") None None in
  run (Fixture.server (Some (Fixture.response 200 (Fixture.data_k "old"))) None)
      Fixture.no_regex params =
    (Raise TypeError,
     {| network := [GET (url_of params) (get_headers params)];
        results := [] |}).
Proof.
  cbv zeta.
  apply (missing_value_ends_in_type_error
           (Fixture.server (Some (Fixture.response 200 (Fixture.data_k "old"))) None)
           Fixture.no_regex
           (Fixture.request "test" (Some "/data/k") None None)
           "/data/k" (Fixture.response 200 (Fixture.data_k "old")) (JStr "old")).
  - simpl. auto.
  - reflexivity.
  - reflexivity.
  - reflexivity.
  - reflexivity.
  - discriminate.
  - discriminate.
  - reflexivity.
Defined.

(** X21. Whatever the request and the server, an invocation sends
    nothing, or one GET, or one GET followed by one PATCH that carries
    the patch document built from the request. *)
Theorem invocation_network_discipline
    (server : Transport) (re_search : string -> string -> completion bool)
    (params : Params) :
  let sent := network (snd (run server re_search params)) in
  sent = [] \/
  sent = [GET (url_of params) (get_headers params)] \/
  exists doc,
    payload_of params start = (Return doc, start) /\
    sent = [GET (url_of params) (get_headers params);
            PATCH (url_of params) (patch_headers params) (json_dumps doc)].
Proof.
  cbv zeta. unfold run.
  destruct (Str.lower (operation (object params)) == "get") eqn:Hget.
  - right; left. unfold main. rewrite Hget. cbn [negb].
    unfold bind at 1 2. unfold ret at 1. cbv beta iota.
    unfold try_except at 1. rewrite getObject_sends_get.
    destruct (requests_get server _ _) as [r |]; [| reflexivity].
    cbv beta iota. rewrite try_fail_keeps_network. apply apiResponse_network.
  - destruct (path (object params)) as [p |] eqn:Hp.
    + destruct (Str.startswith "/" p) eqn:Hs.
      * rewrite (main_reaches_choice _ _ _ _ Hget Hp Hs).
        destruct (requests_get server _ _) as [g |]; [| right; left; reflexivity].
        unfold bind.
        pose proof (known_operation_keeps_state re_search
                      (Str.lower (operation (object params)))
                      {| network := [GET (url_of params) (get_headers params)];
                         results := [] |}) as Hk.
        destruct (known_operation _ _ _) as [[[] | e] st']; simpl in Hk; subst st'.
        -- rewrite try_fail_keeps_network.
           destruct (patchObject_network server params g
                       {| network := [GET (url_of params) (get_headers params)];
                          results := [] |})
             as [sent [Hn [-> | [doc [Hd ->]]]]]; rewrite Hn.
           ++ right; left. reflexivity.
           ++ right; right. exists doc. split; [| reflexivity].
              destruct (payload_of_pure params) as [c Hc].
              rewrite Hc in Hd. injection Hd as ->. apply Hc.
        -- right; left. reflexivity.
        -- right; left. reflexivity.
      * left. unfold main, param_path. rewrite Hget, Hp. cbn [negb].
        unfold bind at 1 2. unfold ret at 1. cbv beta iota. rewrite Hs.
        reflexivity.
    + left. unfold main, param_path. rewrite Hget, Hp. reflexivity.
Qed.

(** ** Operation names and the endpoint *)

Section Names.

Lemma lower_char_idem c : Str.lower_char (Str.lower_char c) = Str.lower_char c.
Proof.
  destruct c as [[] [] [] [] [] [] [] []]; reflexivity.
Qed.

Lemma lower_idem s : Str.lower (Str.lower s) = Str.lower s.
Proof.
  induction s as [| c s IH]; simpl; [reflexivity |].
  now rewrite lower_char_idem, IH.
Qed.

Lemma lstrip_split chars s :
  exists pre,
    s = pre ++ Str.lstrip chars s /\
    (forall c, In c (list_ascii_of_string pre) -> Str.mem c chars = true) /\
    match Str.lstrip chars s with
    | EmptyString => True
    | String c _ => Str.mem c chars = false
    end.
Proof.
  induction s as [| c s [pre [H1 [H2 H3]]]]; simpl.
  - exists "". repeat split. intros c [].
  - destruct (Str.mem c chars) eqn:Hc.
    + exists (String c pre). simpl. split; [now rewrite <- H1 |].
      split; [| exact H3]. intros d [<- | Hd]; [exact Hc | now apply H2].
    + exists "". simpl. repeat split; [intros d [] | exact Hc].
Qed.

Lemma string_app_assoc (a b c : string) : (a ++ b) ++ c = a ++ b ++ c.
Proof.
  induction a as [| x a IH]; simpl; [reflexivity | now rewrite IH].
Qed.

End Names.

(** X22. The operation is read without regard to case: a request and the
    same request with its operation in lower case run alike, down to the
    URL, the patch document and the results. *)
Theorem operation_is_case_insensitive
    (server : Transport) (re_search : string -> string -> completion bool)
    (tok h ns nm ty op : string) (prt : Z)
    (p : option string) (v : option JsonValue) (f : option string) :
  let request o :=
    {| token := tok; host := h; port := prt; namespace := ns;
       object := {| name := nm; type := ty; operation := o;
                    path := p; value := v; from := f |} |} in
  run server re_search (request op) =
  run server re_search (request (Str.lower op)).
Proof.
  cbv zeta.
  unfold run, main, patchObject, getObject, apiResponse, payload_of,
    param_path, url_of, endpoint_of, get_headers, patch_headers,
    ApiEndpoint.init, ApiEndpoint.str.
  cbn [operation object path value from name type token host port namespace
       ApiEndpoint.host ApiEndpoint.port ApiEndpoint.namespace
       ApiEndpoint.objectName ApiEndpoint.objectType].
  rewrite lower_idem. reflexivity.
Qed.

(** X23. For an operation made of literal characters, the check of
    [main] against [replace|add|remove|move|test] succeeds exactly for
    the five words and for the empty string. *)
Theorem operation_check_accepts (op : string) :
  Re.literal op = true ->
  Re.search_word op "replace|add|remove|move|test" = true <->
  In op [""; "replace"; "add"; "remove"; "move"; "test"].
Proof.
  intros Hl. split; [now apply search_word_literal |].
  simpl. intros H.
  repeat (destruct H as [<- | H]; [reflexivity |]). destruct H.
Qed.

Lemma operation_check_accepts_witness :
  Re.search_word "" "replace|add|remove|move|test" = true /\
  ~ Re.search_word "mov" "replace|add|remove|move|test" = true.
Proof.
  split.
  - apply (proj2 (operation_check_accepts "" eq_refl)). simpl. auto.
  - intros H. apply (proj1 (operation_check_accepts "mov" eq_refl)) in H.
    simpl in H. repeat (destruct H as [H | H]; [discriminate H |]). exact H.
Defined.

(** X24. The host that the endpoint keeps is the given host without a
    leading run of characters that occur in [https://]: it never begins
    with [h], [t], [p], [s], [:] or [/]. *)
Theorem endpoint_host_is_lstripped
    (host : string) (port : Z) (namespace name type op : string) :
  let kept :=
    ApiEndpoint.host (ApiEndpoint.init host port namespace name type op) in
  exists stripped,
    host = stripped ++ kept /\
    (forall c, In c (list_ascii_of_string stripped) ->
               Str.mem c "https://" = true) /\
    match kept with
    | EmptyString => True
    | String c _ => Str.mem c "https://" = false
    end.
Proof.
  cbv zeta. simpl. apply lstrip_split.
Qed.

(** X25. For a host whose first character does not occur in [https://],
    the URL is [https://{host}:{port}/api/v1/namespaces/{namespace}/]
    followed by the type in lower case, [s/] and the name. *)
Theorem endpoint_url_template
    (c : ascii) (host' : string) (port : Z) (namespace name type op : string) :
  Str.mem c "https://" = false ->
  ApiEndpoint.str
    (ApiEndpoint.init (String c host') port namespace name type op) =
  "https://" ++ String c host' ++ ":" ++ Str.of_int port ++
  "/api/v1/namespaces/" ++ namespace ++ "/" ++ Str.lower type ++ "s/" ++ name.
Proof.
  intros H. unfold ApiEndpoint.str, ApiEndpoint.init.
  cbn [ApiEndpoint.host ApiEndpoint.port ApiEndpoint.namespace
       ApiEndpoint.objectName ApiEndpoint.objectType].
  cbn [Str.lstrip]. rewrite H.
  repeat rewrite string_app_assoc. reflexivity.
Qed.

Lemma endpoint_url_template_witness :
  ApiEndpoint.str
    (ApiEndpoint.init "myocp.companyname.local" 8443 "demo-namespace"
       "demo-configmap" "ConfigMap" "get") =
  "https://myocp.companyname.local:8443/api/v1/namespaces/demo-namespace/configmaps/demo-configmap".
Proof.
  apply (endpoint_url_template "m" "yocp.companyname.local" 8443
           "demo-namespace" "demo-configmap" "ConfigMap" "get").
  reflexivity.
Defined.
